(** * Call-centre workforce KPIs: the metrics calculator and its
      cross-source reconciliation

    A shallow embedding of [MetricsCalculator] (utils/metricsCalculator.ts)
    and of the inline computation of components/Dashboard.tsx (its filters,
    KPIs, queue statistics and utilization distribution, and [formatTime]),
    with the properties of the specification stated over them, and further
    properties of the code after those.

    Conventions of the embedding.

    - A table is a list of rows; a row is a JavaScript object whose
      properties are text, as [Papa.parse(file, { header: true,
      skipEmptyLines: true })] produces them in FileUpload: a finite map
      from property names to strings.  Reading a property that is absent
      yields [undefined], here [None].
    - Method calls on [undefined] raise a [TypeError]; the functions that
      contain such calls live in the exception monad [exc], so that "does
      not throw" is a statement and not a convention.
    - Integers that the code obtains from [parseInt], from [.length] and
      from sums and differences of those are values of [Z].  Other numbers
      are values of [number]: NaN, the two infinities, or an exact rational.
      Binary64 rounding, overflow to Infinity, negative zero and the switch
      of [Number.prototype.toString] to exponent notation at 1e21 are not
      part of the model.
    - Text is a [string] of characters; white space is the ASCII white space
      that [trim], [parseInt] and [parseFloat] skip.
    - [console.log] output, including the comparison against the fixed
      baseline at the end of [calculateDetailedMetrics], is not part of the
      returned report and is left out. *)

From Stdlib Require Import ZArith QArith Qabs Qround String Ascii List Lia Bool.
From Stdlib Require Import Lqa.
From Stdlib Require Import Permutation Sorted.
From Stdlib Require Import DecimalString.
From Stdlib Require PrimFloat.
From stdpp Require Import base option gmap strings list.

Import ListNotations.
Local Open Scope string_scope.
Local Open Scope Z_scope.

(** ** The fragment of JavaScript the calculator uses *)

Module JS.

(** *** Exceptions *)

Inductive error : Type :=
| TypeError (message : string).

Inductive exc (A : Type) : Type :=
| Ok (a : A)
| Throw (e : error).

Arguments Ok {A} a.
Arguments Throw {A} e.

Definition ret {A : Type} (a : A) : exc A := Ok a.

Definition bind {A B : Type} (m : exc A) (k : A -> exc B) : exc B :=
  match m with
  | Ok a => k a
  | Throw e => Throw e
  end.

Notation "'let*' x ':=' m 'in' k" := (bind m (fun x => k))
  (at level 10, x name, m at level 100, k at level 200,
   format "'[v' 'let*'  x  ':='  m  'in'  '/' k ']'").

(** [array.filter(p)] with a predicate that may throw. *)
Fixpoint filterM {A : Type} (p : A -> exc bool) (l : list A) : exc (list A) :=
  match l with
  | [] => ret []
  | x :: l' =>
      let* b := p x in
      let* r := filterM p l' in
      ret (if b then x :: r else r)
  end.

(** [array.forEach(body)] over an accumulator that the body updates. *)
Fixpoint forEachM {A S : Type} (body : S -> A -> exc S) (l : list A) (s : S)
  : exc S :=
  match l with
  | [] => ret s
  | x :: l' => let* s' := body s x in forEachM body l' s'
  end.

(** *** Values read from a row: text or [undefined] *)

Definition value : Type := option string.

Definition undefined : value := None.

(** [ToBoolean]: [undefined] and the empty string are falsy. *)
Definition truthy (v : value) : bool :=
  match v with
  | None => false
  | Some s => negb (String.eqb s "")
  end.

(** [v || d] for a text default [d]. *)
Definition or_text (v : value) (d : string) : string :=
  match v with
  | Some s => if String.eqb s "" then d else s
  | None => d
  end.

(** [ToString]. *)
Definition ToString (v : value) : string :=
  match v with
  | Some s => s
  | None => "undefined"
  end.

(** [v === s] for a string literal [s]. *)
Definition strict_eq (v : value) (s : string) : bool :=
  match v with
  | Some t => String.eqb t s
  | None => false
  end.

(** *** Text *)

Definition isWhiteSpace (c : ascii) : bool :=
  let n := nat_of_ascii c in
  ((9 <=? n)%nat && (n <=? 13)%nat) || (n =? 32)%nat.

Fixpoint trimStart (s : string) : string :=
  match s with
  | EmptyString => EmptyString
  | String c s' => if isWhiteSpace c then trimStart s' else s
  end.

Definition reverse (s : string) : string :=
  string_of_list_ascii (List.rev (list_ascii_of_string s)).

Definition trimEnd (s : string) : string := reverse (trimStart (reverse s)).

Definition trim (s : string) : string := trimEnd (trimStart s).

(** [v.trim()]: a [TypeError] when [v] is [undefined]. *)
Definition method_trim (v : value) : exc string :=
  match v with
  | Some s => Ok (trim s)
  | None => Throw (TypeError "Cannot read properties of undefined (reading 'trim')")
  end.

(** [s.split(sep)] for a one-character separator. *)
Fixpoint split (sep : ascii) (s : string) : list string :=
  match s with
  | EmptyString => [EmptyString]
  | String c s' =>
      if Ascii.eqb c sep then EmptyString :: split sep s'
      else match split sep s' with
           | p :: ps => String c p :: ps
           | [] => [String c EmptyString]
           end
  end.

(** [s.includes(needle)]. *)
Fixpoint includes (needle s : string) : bool :=
  String.prefix needle s ||
  match s with
  | EmptyString => false
  | String _ s' => includes needle s'
  end.

(** [v?.includes(needle)]: [undefined] when [v] is. *)
Definition opt_includes (v : value) (needle : string) : option bool :=
  match v with
  | Some s => Some (includes needle s)
  | None => None
  end.

(** [!b] for [b] a boolean or [undefined]. *)
Definition not_opt (b : option bool) : bool :=
  match b with
  | Some x => negb x
  | None => true
  end.

(** *** Integers: [parseInt] *)

Definition decimal_digit (c : ascii) : option Z :=
  let n := nat_of_ascii c in
  if (48 <=? n)%nat && (n <=? 57)%nat then Some (Z.of_nat (n - 48)) else None.

Definition hex_digit (c : ascii) : option Z :=
  let n := nat_of_ascii c in
  if (48 <=? n)%nat && (n <=? 57)%nat then Some (Z.of_nat (n - 48))
  else if (97 <=? n)%nat && (n <=? 102)%nat then Some (Z.of_nat (n - 87))
  else if (65 <=? n)%nat && (n <=? 70)%nat then Some (Z.of_nat (n - 55))
  else None.

(** The digits of the longest prefix of [s] made of digits, and the rest. *)
Fixpoint span_digits (digit : ascii -> option Z) (s : string)
  : list Z * string :=
  match s with
  | EmptyString => ([], EmptyString)
  | String c s' =>
      match digit c with
      | Some d => let '(ds, r) := span_digits digit s' in (d :: ds, r)
      | None => ([], s)
      end
  end.

Definition digits_value (radix : Z) (ds : list Z) : Z :=
  fold_left (fun acc d => acc * radix + d) ds 0.

(** The result of [parseInt]: an integer, or NaN ([None]). *)
Definition parseInt_text (input : string) : option Z :=
  let s := trimStart input in
  let '(sign, s) :=
    match s with
    | String "-" r => (-1, r)
    | String "+" r => (1, r)
    | _ => (1, s)
    end in
  let '(radix, digit, s) :=
    match s with
    | String "0" (String "x" r) => (16, hex_digit, r)
    | String "0" (String "X" r) => (16, hex_digit, r)
    | _ => (10, decimal_digit, s)
    end in
  match fst (span_digits digit s) with
  | [] => None
  | ds => Some (sign * digits_value radix ds)
  end.

Definition parseInt (v : value) : option Z := parseInt_text (ToString v).

(** [isNaN(parseInt(..))], [parseInt(..) > 0] and [parseInt(..) || 0]. *)
Definition int_isNaN (n : option Z) : bool :=
  match n with
  | Some _ => false
  | None => true
  end.

Definition int_gt0 (n : option Z) : bool :=
  match n with
  | Some z => 0 <? z
  | None => false
  end.

Definition int_or0 (n : option Z) : Z :=
  match n with
  | Some z => z
  | None => 0
  end.

(** *** Numbers *)

Inductive number : Type :=
| NaN
| Infinity (negative : bool)
| Fin (q : Q).

Definition of_Z (z : Z) : number := Fin (inject_Z z).

Definition zero : number := of_Z 0.

(** [q < 0] on rationals. *)
Definition Qnegative (q : Q) : bool := negb (Qle_bool 0 q).

Definition add (x y : number) : number :=
  match x, y with
  | NaN, _ | _, NaN => NaN
  | Infinity a, Infinity b => if Bool.eqb a b then Infinity a else NaN
  | Infinity a, Fin _ | Fin _, Infinity a => Infinity a
  | Fin a, Fin b => Fin (Qred (a + b))
  end.

Definition opp (x : number) : number :=
  match x with
  | NaN => NaN
  | Infinity a => Infinity (negb a)
  | Fin a => Fin (Qred (- a))
  end.

Definition sub (x y : number) : number := add x (opp y).

Definition mul (x y : number) : number :=
  match x, y with
  | NaN, _ | _, NaN => NaN
  | Infinity a, Infinity b => Infinity (xorb a b)
  | Infinity a, Fin q | Fin q, Infinity a =>
      if Qeq_bool q 0 then NaN else Infinity (xorb a (Qnegative q))
  | Fin a, Fin b => Fin (Qred (a * b))
  end.

Definition div (x y : number) : number :=
  match x, y with
  | NaN, _ | _, NaN => NaN
  | Infinity _, Infinity _ => NaN
  | Infinity a, Fin q => Infinity (xorb a (Qnegative q))
  | Fin _, Infinity _ => zero
  | Fin a, Fin b =>
      if Qeq_bool b 0
      then (if Qeq_bool a 0 then NaN else Infinity (Qnegative a))
      else Fin (Qred (a / b))
  end.

(** [x > y]: false as soon as one side is NaN. *)
Definition gt (x y : number) : bool :=
  match x, y with
  | NaN, _ | _, NaN => false
  | Infinity a, Infinity b => negb a && b
  | Infinity a, Fin _ => negb a
  | Fin _, Infinity b => b
  | Fin a, Fin b => negb (Qle_bool a b)
  end.

(** [Math.round]: halves go up. *)
Definition round (x : number) : number :=
  match x with
  | Fin q => of_Z (Qfloor (q + (1 # 2)))
  | _ => x
  end.

(** [ToBoolean] on numbers and [x || 0]. *)
Definition num_truthy (x : number) : bool :=
  match x with
  | NaN => false
  | Infinity _ => true
  | Fin q => negb (Qeq_bool q 0)
  end.

Definition num_or0 (x : number) : number := if num_truthy x then x else zero.

(** *** Rendering numbers: [ToString] on integers and [toFixed] *)

Definition digits_of_N (n : N) : string :=
  NilZero.string_of_uint (N.to_uint n).

Definition string_of_Z (z : Z) : string :=
  if z <? 0 then "-" ++ digits_of_N (Z.abs_N z) else digits_of_N (Z.to_N z).

Fixpoint zeros (n : nat) : string :=
  match n with
  | O => ""
  | S n' => String "0" (zeros n')
  end.

(** [x.toFixed(f)], steps 6 to 10 of Number.prototype.toFixed, for
    [|x| < 1e21]. *)
Definition toFixed (x : number) (f : nat) : string :=
  match x with
  | NaN => "NaN"
  | Infinity false => "Infinity"
  | Infinity true => "-Infinity"
  | Fin q =>
      let s := if Qnegative q then "-" else "" in
      let n := Qfloor (Qabs q * inject_Z (10 ^ Z.of_nat f) + (1 # 2)) in
      let m := digits_of_N (Z.to_N n) in
      let m :=
        match f with
        | O => m
        | _ =>
            let k := String.length m in
            let m := if (k <=? f)%nat then zeros (f + 1 - k) ++ m else m in
            let k := String.length m in
            substring 0 (k - f) m ++ "." ++ substring (k - f) f m
        end in
      s ++ m
  end.

(** *** [parseFloat] *)

(** The value [d1 d2 ... dn] * 10 ^ e as a rational. *)
Definition decimal_value (ds : list Z) (e : Z) : Q :=
  let m := inject_Z (digits_value 10 ds) in
  Qred (if 0 <=? e then m * inject_Z (10 ^ e) else m / inject_Z (10 ^ (- e))).

(** An exponent part [e], [e+] or [e-] followed by at least one digit;
    0 when the text does not start with one. *)
Definition exponent_part (s : string) : Z :=
  match s with
  | String c r =>
      if Ascii.eqb c "e" || Ascii.eqb c "E" then
        let '(sign, r) :=
          match r with
          | String "-" r' => (-1, r')
          | String "+" r' => (1, r')
          | _ => (1, r)
          end in
        match fst (span_digits decimal_digit r) with
        | [] => 0
        | ds => sign * digits_value 10 ds
        end
      else 0
  | EmptyString => 0
  end.

(** The longest prefix that is a StrDecimalLiteral, evaluated. *)
Definition parseFloat_text (input : string) : number :=
  let s := trimStart input in
  let '(negative, s) :=
    match s with
    | String "-" r => (true, r)
    | String "+" r => (false, r)
    | _ => (false, s)
    end in
  if String.prefix "Infinity" s then Infinity negative
  else
    let '(int_digits, s) := span_digits decimal_digit s in
    let '(frac_digits, s) :=
      match s with
      | String "." r => span_digits decimal_digit r
      | _ => ([], s)
      end in
    match int_digits, frac_digits with
    | [], [] => NaN
    | _, _ =>
        let e := exponent_part s in
        let q := decimal_value (int_digits ++ frac_digits)
                   (e - Z.of_nat (List.length frac_digits)) in
        Fin (if negative then Qred (- q) else q)
    end.

Definition parseFloat (v : value) : number := parseFloat_text (ToString v).

(** *** What the Dashboard uses besides *)

(** [v.split(sep)]: a [TypeError] when [v] is [undefined]. *)
Definition method_split (v : value) (sep : ascii) : exc (list string) :=
  match v with
  | Some s => Ok (split sep s)
  | None =>
      Throw (TypeError "Cannot read properties of undefined (reading 'split')")
  end.

(** [s.toLowerCase()] on ASCII letters. *)
Definition lower (c : ascii) : ascii :=
  let n := nat_of_ascii c in
  if (65 <=? n)%nat && (n <=? 90)%nat then ascii_of_nat (n + 32) else c.

Fixpoint toLowerCase (s : string) : string :=
  match s with
  | EmptyString => EmptyString
  | String c s' => String (lower c) (toLowerCase s')
  end.





(** [array.sort(compare)]: the sort is stable, and [compare a b > 0] puts
    [a] after [b].  The comparators of the Dashboard return finite numbers
    and order their arguments consistently, so that the sorted array is
    determined. *)
Fixpoint sort_insert {A : Type} (compare : A -> A -> number) (x : A)
  (sorted : list A) : list A :=
  match sorted with
  | [] => [x]
  | y :: rest =>
      if gt (compare x y) zero then y :: sort_insert compare x rest
      else x :: sorted
  end.

Definition sort {A : Type} (compare : A -> A -> number) (l : list A) : list A :=
  fold_right (sort_insert compare) [] l.

(** A [Map] with string keys: its entries in insertion order. *)
Definition map_get {V : Type} (key : string) (m : list (string * V))
  : option V :=
  match List.find (fun entry => String.eqb (fst entry) key) m with
  | Some entry => Some (snd entry)
  | None => None
  end.

Definition map_has {V : Type} (key : string) (m : list (string * V)) : bool :=
  match map_get key m with
  | Some _ => true
  | None => false
  end.

(** [m.set(key, v)]: in place for a key that is present, at the end for a
    new one. *)
Fixpoint map_set {V : Type} (key : string) (v : V) (m : list (string * V))
  : list (string * V) :=
  match m with
  | [] => [(key, v)]
  | (k, w) :: rest =>
      if String.eqb k key then (k, v) :: rest
      else (k, w) :: map_set key v rest
  end.

End JS.

Import JS.

(** ** Tables *)

(** A row of an uploaded table: property name to text. *)
Abbreviation row := (gmap string string).

(** [agent['Logged In']], [agent.Answered], ...: the property or
    [undefined]. *)
Definition prop (r : row) (name : string) : value := r !! name.

(** [array.length]. *)
Definition len {A : Type} (l : list A) : Z := Z.of_nat (List.length l).

(** ** The report *)

Module Report.

(** [result: number | string]. *)
Inductive result_value : Type :=
| RNumber (n : number)
| RText (s : string).

(** One entry of [calculationDetails]; [V] is the shape of [values]. *)
Record Trace (V : Type) : Type := mkTrace {
  formula : string;
  values : V;
  calculation : string;
  result : result_value
}.

Arguments mkTrace {V} _ _ _ _.
Arguments formula {V} _.
Arguments values {V} _.
Arguments calculation {V} _.
Arguments result {V} _.

Record AgentCoverage : Type := {
  performanceAgents : Z;
  statusAgents : Z;
  missingAgents : Z;
  possibleCallsPerMissingAgent : number
}.

Record ReconciliationValues : Type := {
  agentPerformanceCallTotal : Z;
  rv_interactionsAnsweredTotal : Z;
  rv_callDiscrepancy : Z;
  rv_discrepancyPercent : string;
  dataQualityFlag : string;
  rv_totalInteractions : Z;
  inboundInteractions : Z;
  outboundInteractions : Z;
  agentCoverage : AgentCoverage;
  rv_recommendedAction : string
}.

Record FilteringValues : Type := {
  totalAgentPerformanceRows : Z;
  validAgentPerformanceRows : Z;
  totalAgentStatusRows : Z;
  validAgentStatusRows : Z;
  fv_totalInteractions : Z;
  fv_validInteractions : Z
}.

Record TotalCallsValues : Type := {
  tc_totalInteractions : Z;
  answeredInteractions : Z;
  abandonedInteractions : Z;
  tc_agentPerformanceTotal : Z;
  discrepancyFromAgentData : Z;
  dataSourceUsed : string
}.

Record BusinessImpact : Type := {
  currentReported : string;
  ifMixedSources : string;
  differenceInTransfers : number;
  riskAssessment : string
}.

Record TransferRateValues : Type := {
  tr_totalTransferred : Z;
  reportedRate : number;
  rateCalculationBasis : string;
  agentPerformanceRate : number;
  mixedSourceRate : number;
  potentialUnderstatement : string;
  businessImpact : BusinessImpact;
  tr_recommendedAction : string
}.

Record AbandonmentValues : Type := {
  ab_totalInteractions : Z;
  totalInboundCalls : Z;
  outboundCallsExcluded : Z;
  abandonedInboundCalls : Z;
  ab_answeredInboundCalls : Z;
  ab_percentage : number
}.

Record SpeedOfAnswerValues : Type := {
  asa_answeredInboundCalls : Z;
  totalQueueTimeMinutes : number;
  sampleQueueTimes : list number;
  asa_averageMinutes : number
}.

Record HandleTimeValues : Type := {
  handledCalls : Z;
  totalHandleTimeMinutes : number;
  sampleHandleTimes : list number;
  aht_averageMinutes : number
}.

Record ProductiveValues : Type := {
  totalProductiveTimeMinutes : string;
  pu_totalLoggedTimeMinutes : string;
  productiveCallsAnalyzed : Z;
  pu_percentage : number
}.

Record UtilizationSample : Type := {
  us_agent : value;
  loggedMinutes : string;
  onQueueMinutes : string;
  utilization : string
}.

Record OnQueueValues : Type := {
  totalOnQueueTimeMinutes : string;
  oq_totalLoggedTimeMinutes : string;
  oq_utilizationSamples : list UtilizationSample;
  oq_percentage : number
}.

Record ShrinkageSample : Type := {
  ss_agent : value;
  ss_shrinkage : string;
  ss_breakTime : string;
  ss_mealTime : string;
  ss_awayTime : string
}.

Record ShrinkageValues : Type := {
  sv_totalBreakTime : string;
  sv_totalMealTime : string;
  sv_totalAwayTime : string;
  sv_totalNotRespondingTime : string;
  sv_totalOffQueueTime : string;
  sv_totalShrinkageTime : string;
  sv_totalLoggedTime : string;
  agentSamples : list ShrinkageSample;
  sv_percentage : number
}.

(** [calculationDetails], one property per trace, in insertion order. *)
Record CalculationDetails : Type := {
  cd_dataReconciliation : Trace ReconciliationValues;
  cd_dataFiltering : Trace FilteringValues;
  cd_totalCalls : Trace TotalCallsValues;
  cd_transferRate : Trace TransferRateValues;
  cd_abandonmentRate : Trace AbandonmentValues;
  cd_avgSpeedOfAnswer : Trace SpeedOfAnswerValues;
  cd_avgHandleTime : Trace HandleTimeValues;
  cd_productiveUtilization : Trace ProductiveValues;
  cd_onQueueUtilization : Trace OnQueueValues;
  cd_shrinkage : Trace ShrinkageValues
}.

Record DetailedMetrics : Type := {
  totalCalls : Z;
  transferRate : number;
  productiveUtilization : number;
  onQueueUtilization : number;
  avgSpeedOfAnswer : number;
  abandonmentRate : number;
  avgHandleTime : number;
  shrinkage : number;
  calculationDetails : CalculationDetails
}.

End Report.

(** ** utils/metricsCalculator.ts *)

Module MetricsCalculator.

Definition parseTimeToMinutes (timeStr : value) : exc number :=
  let* blank :=
    (if negb (truthy timeStr) then ret true
     else let* t := method_trim timeStr in ret (String.eqb t "")) in
  if blank then ret zero
  else
    (* Remove leading/trailing spaces and handle format " HH:MM:SS.mmm" *)
    let* cleanTime := method_trim timeStr in
    let parts := split ":" cleanTime in
    if len parts =? 3 then
      let hours := int_or0 (parseInt (parts !! 0%nat)) in
      let minutes := int_or0 (parseInt (parts !! 1%nat)) in
      let seconds := num_or0 (parseFloat (parts !! 2%nat)) in
      ret (add (of_Z (hours * 60 + minutes)) (div seconds (of_Z 60)))
    else ret zero.

Definition parseTimeToSeconds (timeStr : value) : exc number :=
  let* m := parseTimeToMinutes timeStr in
  ret (mul m (of_Z 60)).

(** [this.parseTimeToMinutes(row[name] || '0:00:00.000')]. *)
Definition minutesOf (r : row) (name : string) : exc number :=
  parseTimeToMinutes (Some (or_text (prop r name) "0:00:00.000")).

(** [!agent['Agent Name']?.includes('Template')]. *)
Definition notTemplate (agent : row) : bool :=
  not_opt (opt_includes (prop agent "Agent Name") "Template").

(** [call.Abandoned === 'NO'] and [call.Abandoned === 'YES']. *)
Definition isAnswered (call : row) : bool :=
  strict_eq (prop call "Abandoned") "NO".

Definition isAbandoned (call : row) : bool :=
  strict_eq (prop call "Abandoned") "YES".

(** [rows.reduce((sum, agent) => sum + (parseInt(agent[name]) || 0), 0)]. *)
Definition sumInt (name : string) (rows : list row) : Z :=
  fold_left (fun sum agent => sum + int_or0 (parseInt (prop agent name)))
    rows 0.

(** [den > 0 ? (num / den) * 100 : 0] on durations. *)
Definition percentOfTime (num den : number) : number :=
  if gt den zero then mul (div num den) (of_Z 100) else zero.

Section calculateDetailedMetrics.

Variables agentPerformance agentStatus trainingInteractions : list row.

(** Step 1: Data Filtering and Validation *)

Definition hasAnswered (agent : row) : bool :=
  truthy (prop agent "Answered")
  && negb (int_isNaN (parseInt (prop agent "Answered")))
  && int_gt0 (parseInt (prop agent "Answered")).

Definition validAgentPerformance : list row :=
  List.filter (fun agent => hasAnswered agent && notTemplate agent)
    agentPerformance.

Definition hasLoggedTime (agent : row) : exc bool :=
  if truthy (prop agent "Logged In") then
    let* t := method_trim (prop agent "Logged In") in
    ret (negb (String.eqb t ""))
  else ret false.

Definition validAgentStatus : exc (list row) :=
  filterM (fun agent =>
             let* logged := hasLoggedTime agent in
             ret (logged && notTemplate agent))
    agentStatus.

Definition validInteractions : list row :=
  List.filter (fun interaction =>
                 truthy (prop interaction "Initial Direction")
                 && truthy (prop interaction "Queue"))
    trainingInteractions.

(** Step 2: Prepare data for analysis *)

Definition inboundCalls : list row :=
  List.filter (fun call => strict_eq (prop call "Initial Direction") "Inbound")
    validInteractions.

(** Compare call totals between data sources *)

Definition agentPerformanceTotal : Z := sumInt "Answered" validAgentPerformance.

Definition interactionsAnsweredTotal : Z :=
  len (List.filter isAnswered validInteractions).

(** [Math.abs] of a difference of integers. *)
Definition callDiscrepancy : Z :=
  Z.abs (agentPerformanceTotal - interactionsAnsweredTotal).

Definition discrepancyPercent : number :=
  if agentPerformanceTotal >? 0
  then mul (div (of_Z callDiscrepancy) (of_Z agentPerformanceTotal)) (of_Z 100)
  else zero.

Definition dataReconciliation (validStatus : list row)
  : Report.Trace Report.ReconciliationValues :=
  Report.mkTrace
    "Compare call totals across data sources to identify discrepancies"
    {| Report.agentPerformanceCallTotal := agentPerformanceTotal;
       Report.rv_interactionsAnsweredTotal := interactionsAnsweredTotal;
       Report.rv_callDiscrepancy := callDiscrepancy;
       Report.rv_discrepancyPercent := toFixed discrepancyPercent 2 ++ "%";
       Report.dataQualityFlag :=
         if gt discrepancyPercent (of_Z 5) then "🚨 CRITICAL DISCREPANCY"
         else "✅ Acceptable variance";
       Report.rv_totalInteractions := len validInteractions;
       Report.inboundInteractions := len inboundCalls;
       Report.outboundInteractions := len validInteractions - len inboundCalls;
       Report.agentCoverage :=
         {| Report.performanceAgents := len validAgentPerformance;
            Report.statusAgents := len validStatus;
            Report.missingAgents := len validStatus - len validAgentPerformance;
            Report.possibleCallsPerMissingAgent :=
              round (div (of_Z callDiscrepancy)
                       (of_Z (len validStatus - len validAgentPerformance)))
         |};
       Report.rv_recommendedAction :=
         if gt discrepancyPercent (of_Z 30)
         then "URGENT: Investigate missing agent data"
         else if gt discrepancyPercent (of_Z 10)
         then "Review data export timeframes"
         else "Monitor trends"
    |}
    ("Agent Performance: " ++ string_of_Z agentPerformanceTotal
     ++ " calls vs Interactions: " ++ string_of_Z interactionsAnsweredTotal
     ++ " answered calls = " ++ string_of_Z callDiscrepancy
     ++ " difference (" ++ toFixed discrepancyPercent 2 ++ "%)")
    (Report.RText
       (if gt discrepancyPercent (of_Z 30)
        then "🚨 " ++ toFixed discrepancyPercent 2
             ++ "% discrepancy - URGENT DATA ISSUE"
        else if gt discrepancyPercent (of_Z 5)
        then "⚠️ " ++ toFixed discrepancyPercent 2
             ++ "% discrepancy - DATA INTEGRITY ISSUE"
        else "✅ " ++ toFixed discrepancyPercent 2 ++ "% variance - acceptable")).

Definition dataFiltering (validStatus : list row)
  : Report.Trace Report.FilteringValues :=
  Report.mkTrace
    "Filter out templates and agents with no activity"
    {| Report.totalAgentPerformanceRows := len agentPerformance;
       Report.validAgentPerformanceRows := len validAgentPerformance;
       Report.totalAgentStatusRows := len agentStatus;
       Report.validAgentStatusRows := len validStatus;
       Report.fv_totalInteractions := len trainingInteractions;
       Report.fv_validInteractions := len validInteractions
    |}
    "Removed template rows and empty data"
    (Report.RText
       ("Performance: " ++ string_of_Z (len validAgentPerformance)
        ++ ", Status: " ++ string_of_Z (len validStatus)
        ++ ", Interactions: " ++ string_of_Z (len validInteractions))).
(** Step 3: Total Calls Calculation - DECISION: Use Interactions as single
    source of truth *)

Definition totalCallsFromAgentPerformance : Z :=
  fold_left (fun sum agent =>
               let answered := int_or0 (parseInt (prop agent "Answered")) in
               sum + answered)
    validAgentPerformance 0.

Definition totalCallsFromInteractions : Z :=
  len (List.filter isAnswered validInteractions).

(** Use Interactions as authoritative source for consistency across all KPIs *)
Definition totalCalls : Z := totalCallsFromInteractions.

Definition totalCallsTrace : Report.Trace Report.TotalCallsValues :=
  Report.mkTrace
    "Count of answered interactions (authoritative source for all KPIs)"
    {| Report.tc_totalInteractions := len validInteractions;
       Report.answeredInteractions := totalCalls;
       Report.abandonedInteractions := len validInteractions - totalCalls;
       Report.tc_agentPerformanceTotal := totalCallsFromAgentPerformance;
       Report.discrepancyFromAgentData :=
         totalCalls - totalCallsFromAgentPerformance;
       Report.dataSourceUsed := "Training Interactions (complete dataset)"
    |}
    (string_of_Z totalCalls ++ " answered interactions from "
     ++ string_of_Z (len validInteractions) ++ " total interactions")
    (Report.RNumber (of_Z totalCalls)).

(** Step 4: Transfer Rate Calculation *)

Definition totalTransferred : Z :=
  fold_left (fun sum agent =>
               sum + int_or0 (parseInt (prop agent "Transferred")))
    validAgentPerformance 0.

Definition agentPerformanceTransferRate : number :=
  if totalCallsFromAgentPerformance >? 0
  then mul (div (of_Z totalTransferred) (of_Z totalCallsFromAgentPerformance))
         (of_Z 100)
  else zero.

Definition mixedSourceTransferRate : number :=
  if totalCalls >? 0
  then mul (div (of_Z totalTransferred) (of_Z totalCalls)) (of_Z 100)
  else zero.

(** Use Agent Performance rate as it's internally consistent, but flag the
    issue *)
Definition transferRate : number := agentPerformanceTransferRate.

Definition transferRateTrace : Report.Trace Report.TransferRateValues :=
  Report.mkTrace
    "(Total Calls Transferred ÷ Total Calls Answered) × 100 [BUSINESS CRITICAL: Data source consistency issue]"
    {| Report.tr_totalTransferred := totalTransferred;
       Report.reportedRate := transferRate;
       Report.rateCalculationBasis := "Agent Performance (internally consistent)";
       Report.agentPerformanceRate := agentPerformanceTransferRate;
       Report.mixedSourceRate := mixedSourceTransferRate;
       Report.potentialUnderstatement :=
         toFixed
           (mul (div (sub agentPerformanceTransferRate mixedSourceTransferRate)
                   agentPerformanceTransferRate)
              (of_Z 100)) 1
         ++ "%";
       Report.businessImpact :=
         {| Report.currentReported := toFixed transferRate 2 ++ "%";
            Report.ifMixedSources := toFixed mixedSourceTransferRate 2 ++ "%";
            Report.differenceInTransfers :=
              round
                (mul (div (sub agentPerformanceTransferRate
                             mixedSourceTransferRate)
                        (of_Z 100))
                   (of_Z totalTransferred));
            Report.riskAssessment :=
              "HIGH - Transfer rate accuracy depends on data coverage completeness"
         |};
       Report.tr_recommendedAction :=
         "URGENT: Verify transfer data exists for all 76,014 calls or use Agent Performance baseline"
    |}
    ("CONSISTENT: " ++ string_of_Z totalTransferred ++ " transfers ÷ "
     ++ string_of_Z totalCallsFromAgentPerformance ++ " Agent Perf calls = "
     ++ toFixed transferRate 2 ++ "% | MIXED: ÷ " ++ string_of_Z totalCalls
     ++ " Interaction calls = " ++ toFixed mixedSourceTransferRate 2 ++ "%")
    (Report.RText
       (toFixed transferRate 2
        ++ "% (Agent Perf baseline) - Mixed source would show "
        ++ toFixed mixedSourceTransferRate 2 ++ "%")).

(** Step 5: Abandonment Rate Calculation *)

Definition abandonedCalls : list row := List.filter isAbandoned inboundCalls.

Definition abandonmentRate : number :=
  if len inboundCalls >? 0
  then mul (div (of_Z (len abandonedCalls)) (of_Z (len inboundCalls)))
         (of_Z 100)
  else zero.

Definition abandonmentRateTrace : Report.Trace Report.AbandonmentValues :=
  Report.mkTrace
    "(Abandoned Inbound Calls ÷ Total Inbound Calls) × 100 [INBOUND ONLY - Cannot abandon outbound calls]"
    {| Report.ab_totalInteractions := len validInteractions;
       Report.totalInboundCalls := len inboundCalls;
       Report.outboundCallsExcluded := len validInteractions - len inboundCalls;
       Report.abandonedInboundCalls := len abandonedCalls;
       Report.ab_answeredInboundCalls := len inboundCalls - len abandonedCalls;
       Report.ab_percentage := abandonmentRate
    |}
    ("(" ++ string_of_Z (len abandonedCalls) ++ " abandoned ÷ "
     ++ string_of_Z (len inboundCalls) ++ " inbound calls) × 100 = "
     ++ toFixed abandonmentRate 2 ++ "%")
    (Report.RNumber abandonmentRate).

(** Step 6: Average Speed of Answer *)

Definition answeredInbound : list row := List.filter isAnswered inboundCalls.

(** The [forEach] that accumulates [totalQueueTime] and the first ten
    [queueTimeSamples]. *)
Definition queueTimeLoop : exc (number * list number) :=
  forEachM
    (fun acc call =>
       let '(totalQueueTime, queueTimeSamples) := acc in
       let* queueTime := minutesOf call "Total Queue" in
       ret (add totalQueueTime queueTime,
            if len queueTimeSamples <? 10
            then (queueTimeSamples ++ [queueTime])%list
            else queueTimeSamples))
    answeredInbound (zero, []).

Definition averageOver (total : number) (calls : list row) : number :=
  if len calls >? 0 then div total (of_Z (len calls)) else zero.

Definition avgSpeedOfAnswerTrace (totalQueueTime : number)
  (queueTimeSamples : list number) : Report.Trace Report.SpeedOfAnswerValues :=
  let avgSpeedOfAnswer := averageOver totalQueueTime answeredInbound in
  Report.mkTrace
    "Σ(Queue Wait Time for answered calls) ÷ Number of Answered Calls"
    {| Report.asa_answeredInboundCalls := len answeredInbound;
       Report.totalQueueTimeMinutes := totalQueueTime;
       Report.sampleQueueTimes := firstn 5 queueTimeSamples;
       Report.asa_averageMinutes := avgSpeedOfAnswer
    |}
    (toFixed totalQueueTime 2 ++ " total queue minutes ÷ "
     ++ string_of_Z (len answeredInbound) ++ " answered calls = "
     ++ toFixed avgSpeedOfAnswer 2 ++ " minutes")
    (Report.RNumber avgSpeedOfAnswer).

(** Step 7: Average Handle Time *)

Definition handleTimeLoop : exc (number * list number) :=
  forEachM
    (fun acc call =>
       let '(totalHandleTime, handleTimeSamples) := acc in
       let* handleTime := minutesOf call "Total Handle" in
       let* acwTime := minutesOf call "Total ACW" in
       let combinedTime := add handleTime acwTime in
       ret (add totalHandleTime combinedTime,
            if len handleTimeSamples <? 10
            then (handleTimeSamples ++ [combinedTime])%list
            else handleTimeSamples))
    answeredInbound (zero, []).

Definition avgHandleTimeTrace (totalHandleTime : number)
  (handleTimeSamples : list number) : Report.Trace Report.HandleTimeValues :=
  let avgHandleTime := averageOver totalHandleTime answeredInbound in
  Report.mkTrace
    "Σ(Talk Time + Hold Time + ACW Time) ÷ Number of Handled Calls"
    {| Report.handledCalls := len answeredInbound;
       Report.totalHandleTimeMinutes := totalHandleTime;
       Report.sampleHandleTimes := firstn 5 handleTimeSamples;
       Report.aht_averageMinutes := avgHandleTime
    |}
    (toFixed totalHandleTime 2 ++ " total handle minutes ÷ "
     ++ string_of_Z (len answeredInbound) ++ " handled calls = "
     ++ toFixed avgHandleTime 2 ++ " minutes")
    (Report.RNumber avgHandleTime).

(** Step 8: Utilization and Shrinkage Calculations *)

Record StatusTotals : Type := {
  totalLoggedTime : number;
  totalOnQueueTime : number;
  totalBreakTime : number;
  totalMealTime : number;
  totalAwayTime : number;
  totalNotRespondingTime : number;
  totalOffQueueTime : number;
  utilizationSamples : list Report.UtilizationSample;
  shrinkageSamples : list Report.ShrinkageSample
}.

Definition noStatusTotals : StatusTotals :=
  {| totalLoggedTime := zero;
     totalOnQueueTime := zero;
     totalBreakTime := zero;
     totalMealTime := zero;
     totalAwayTime := zero;
     totalNotRespondingTime := zero;
     totalOffQueueTime := zero;
     utilizationSamples := [];
     shrinkageSamples := [] |}.

(** The body of [validAgentStatus.forEach]. *)
Definition statusStep (t : StatusTotals) (agent : row) : exc StatusTotals :=
  let* loggedTime := minutesOf agent "Logged In" in
  let* onQueueTime := minutesOf agent "On Queue" in
  let* breakTime := minutesOf agent "Break" in
  let* mealTime := minutesOf agent "Meal" in
  let* awayTime := minutesOf agent "Away" in
  let* notRespondingTime := minutesOf agent "Not Responding" in
  let* offQueueTime := minutesOf agent "Off Queue" in
  let sampled := len (utilizationSamples t) <? 5 in
  let agentShrinkage :=
    percentOfTime
      (add (add (add (add breakTime mealTime) awayTime) notRespondingTime)
         offQueueTime)
      loggedTime in
  ret {| totalLoggedTime := add (totalLoggedTime t) loggedTime;
         totalOnQueueTime := add (totalOnQueueTime t) onQueueTime;
         totalBreakTime := add (totalBreakTime t) breakTime;
         totalMealTime := add (totalMealTime t) mealTime;
         totalAwayTime := add (totalAwayTime t) awayTime;
         totalNotRespondingTime :=
           add (totalNotRespondingTime t) notRespondingTime;
         totalOffQueueTime := add (totalOffQueueTime t) offQueueTime;
         utilizationSamples :=
           if sampled then
             (utilizationSamples t ++
              [{| Report.us_agent := prop agent "Agent Name";
                  Report.loggedMinutes := toFixed loggedTime 1;
                  Report.onQueueMinutes := toFixed onQueueTime 1;
                  Report.utilization :=
                    if gt loggedTime zero
                    then toFixed (mul (div onQueueTime loggedTime) (of_Z 100)) 1
                    else "0.0" |}])%list
           else utilizationSamples t;
         shrinkageSamples :=
           if sampled then
             (shrinkageSamples t ++
              [{| Report.ss_agent := prop agent "Agent Name";
                  Report.ss_shrinkage := toFixed agentShrinkage 1 ++ "%";
                  Report.ss_breakTime := toFixed breakTime 1;
                  Report.ss_mealTime := toFixed mealTime 1;
                  Report.ss_awayTime := toFixed awayTime 1 |}])%list
           else shrinkageSamples t |}.

Definition statusLoop (validStatus : list row) : exc StatusTotals :=
  forEachM statusStep validStatus noStatusTotals.

(** Calculate productive time from interactions *)

Definition allAnsweredCalls : list row :=
  List.filter isAnswered validInteractions.

Definition productiveTimeLoop : exc number :=
  forEachM
    (fun totalProductiveTime call =>
       let* handle := minutesOf call "Total Handle" in
       let totalProductiveTime := add totalProductiveTime handle in
       let* acw := minutesOf call "Total ACW" in
       ret (add totalProductiveTime acw))
    allAnsweredCalls zero.

(** Traditional WFM Shrinkage: Non-productive time as percentage of logged
    time *)
Definition totalShrinkageTime (t : StatusTotals) : number :=
  add (add (add (add (totalBreakTime t) (totalMealTime t)) (totalAwayTime t))
         (totalNotRespondingTime t))
    (totalOffQueueTime t).

Definition productiveUtilizationTrace (t : StatusTotals)
  (totalProductiveTime : number) : Report.Trace Report.ProductiveValues :=
  let productiveUtilization :=
    percentOfTime totalProductiveTime (totalLoggedTime t) in
  Report.mkTrace
    "Σ(Talk Time + Hold Time + ACW Time from all interactions) ÷ Σ(Agent Login Time) × 100"
    {| Report.totalProductiveTimeMinutes := toFixed totalProductiveTime 1;
       Report.pu_totalLoggedTimeMinutes := toFixed (totalLoggedTime t) 1;
       Report.productiveCallsAnalyzed := len allAnsweredCalls;
       Report.pu_percentage := productiveUtilization
    |}
    ("(" ++ toFixed totalProductiveTime 1 ++ " ÷ "
     ++ toFixed (totalLoggedTime t) 1 ++ ") × 100 = "
     ++ toFixed productiveUtilization 2 ++ "%")
    (Report.RNumber productiveUtilization).

Definition onQueueUtilizationTrace (t : StatusTotals)
  : Report.Trace Report.OnQueueValues :=
  let onQueueUtilization :=
    percentOfTime (totalOnQueueTime t) (totalLoggedTime t) in
  Report.mkTrace
    "Σ(On-Queue Time) ÷ Σ(Agent Login Time) × 100"
    {| Report.totalOnQueueTimeMinutes := toFixed (totalOnQueueTime t) 1;
       Report.oq_totalLoggedTimeMinutes := toFixed (totalLoggedTime t) 1;
       Report.oq_utilizationSamples := utilizationSamples t;
       Report.oq_percentage := onQueueUtilization
    |}
    ("(" ++ toFixed (totalOnQueueTime t) 1 ++ " ÷ "
     ++ toFixed (totalLoggedTime t) 1 ++ ") × 100 = "
     ++ toFixed onQueueUtilization 2 ++ "%")
    (Report.RNumber onQueueUtilization).

Definition shrinkageTrace (t : StatusTotals)
  : Report.Trace Report.ShrinkageValues :=
  let shrinkage := percentOfTime (totalShrinkageTime t) (totalLoggedTime t) in
  Report.mkTrace
    "(Break + Meal + Away + Not Responding + Off Queue) ÷ Logged In Time × 100"
    {| Report.sv_totalBreakTime := toFixed (totalBreakTime t) 1;
       Report.sv_totalMealTime := toFixed (totalMealTime t) 1;
       Report.sv_totalAwayTime := toFixed (totalAwayTime t) 1;
       Report.sv_totalNotRespondingTime := toFixed (totalNotRespondingTime t) 1;
       Report.sv_totalOffQueueTime := toFixed (totalOffQueueTime t) 1;
       Report.sv_totalShrinkageTime := toFixed (totalShrinkageTime t) 1;
       Report.sv_totalLoggedTime := toFixed (totalLoggedTime t) 1;
       Report.agentSamples := shrinkageSamples t;
       Report.sv_percentage := shrinkage
    |}
    ("(" ++ toFixed (totalBreakTime t) 1 ++ " + "
     ++ toFixed (totalMealTime t) 1 ++ " + "
     ++ toFixed (totalAwayTime t) 1 ++ " + "
     ++ toFixed (totalNotRespondingTime t) 1 ++ " + "
     ++ toFixed (totalOffQueueTime t) 1 ++ ") ÷ "
     ++ toFixed (totalLoggedTime t) 1 ++ " × 100 = "
     ++ toFixed shrinkage 2 ++ "%")
    (Report.RNumber shrinkage).

(** The returned object, from the filtered status rows and the totals of
    the four loops. *)
Definition report (validStatus : list row)
  (totalQueueTime : number) (queueTimeSamples : list number)
  (totalHandleTime : number) (handleTimeSamples : list number)
  (t : StatusTotals) (totalProductiveTime : number) : Report.DetailedMetrics :=
  {| Report.totalCalls := totalCalls;
     Report.transferRate := transferRate;
     Report.productiveUtilization :=
       percentOfTime totalProductiveTime (totalLoggedTime t);
     Report.onQueueUtilization :=
       percentOfTime (totalOnQueueTime t) (totalLoggedTime t);
     Report.avgSpeedOfAnswer := averageOver totalQueueTime answeredInbound;
     Report.abandonmentRate := abandonmentRate;
     Report.avgHandleTime := averageOver totalHandleTime answeredInbound;
     Report.shrinkage :=
       percentOfTime (totalShrinkageTime t) (totalLoggedTime t);
     Report.calculationDetails :=
       {| Report.cd_dataReconciliation := dataReconciliation validStatus;
          Report.cd_dataFiltering := dataFiltering validStatus;
          Report.cd_totalCalls := totalCallsTrace;
          Report.cd_transferRate := transferRateTrace;
          Report.cd_abandonmentRate := abandonmentRateTrace;
          Report.cd_avgSpeedOfAnswer :=
            avgSpeedOfAnswerTrace totalQueueTime queueTimeSamples;
          Report.cd_avgHandleTime :=
            avgHandleTimeTrace totalHandleTime handleTimeSamples;
          Report.cd_productiveUtilization :=
            productiveUtilizationTrace t totalProductiveTime;
          Report.cd_onQueueUtilization := onQueueUtilizationTrace t;
          Report.cd_shrinkage := shrinkageTrace t |} |}.

(** The whole computation, in the order of the source. *)
Definition calculateDetailedMetrics (timeSummary : list row)
  : exc Report.DetailedMetrics :=
  let* validStatus := validAgentStatus in
  let* queue := queueTimeLoop in
  let* handle := handleTimeLoop in
  let* t := statusLoop validStatus in
  let* totalProductiveTime := productiveTimeLoop in
  ret (report validStatus (fst queue) (snd queue) (fst handle) (snd handle)
         t totalProductiveTime).

End calculateDetailedMetrics.

End MetricsCalculator.

(** ** components/Dashboard.tsx: the inline [metrics] computation

    The filters, the KPIs, the queue statistics, the utilization
    distribution and [formatTime].  The performer lists are not modelled. *)

Module Dashboard.

Section metrics.

Variable trainingInteractions : list row.

(** Filter out invalid data *)
Definition validInteractions : list row :=
  List.filter (fun interaction => truthy (prop interaction "Initial Direction"))
    trainingInteractions.

(** Abandonment Rate from interactions *)
Definition inboundCalls : list row :=
  List.filter (fun call => strict_eq (prop call "Initial Direction") "Inbound")
    validInteractions.

Definition abandonedCalls : list row :=
  List.filter (fun call => strict_eq (prop call "Abandoned") "YES")
    inboundCalls.

Definition abandonmentRate : number :=
  if len inboundCalls >? 0
  then mul (div (of_Z (len abandonedCalls)) (of_Z (len inboundCalls)))
         (of_Z 100)
  else zero.

Variables agentStatus agentPerformance : list row.

Definition validAgentStatus : list row :=
  List.filter
    (fun agent =>
       truthy (prop agent "Logged In")
       && negb (strict_eq (prop agent "Logged In") "0:00:00.000"))
    agentStatus.

Definition validAgentPerformance : list row :=
  List.filter
    (fun agent =>
       truthy (prop agent "Answered")
       && negb (int_isNaN (parseInt (prop agent "Answered"))))
    agentPerformance.

(** Helper function to parse time to minutes *)
Definition parseTimeToMinutes (timeStr : value) : exc number :=
  if negb (truthy timeStr) || strict_eq timeStr "0:00:00.000" then ret zero
  else
    let* parts := method_split timeStr ":" in
    if len parts =? 3 then
      let hours := int_or0 (parseInt (parts !! 0%nat)) in
      let minutes := int_or0 (parseInt (parts !! 1%nat)) in
      let seconds := num_or0 (parseFloat (parts !! 2%nat)) in
      ret (add (of_Z (hours * 60 + minutes)) (div seconds (of_Z 60)))
    else ret zero.

(** [parseTimeToMinutes(row[name] || '0:00:00.000')]. *)
Definition minutesOf (r : row) (name : string) : exc number :=
  parseTimeToMinutes (Some (or_text (prop r name) "0:00:00.000")).

(** Total Calls *)
Definition totalCalls : Z :=
  fold_left (fun sum agent => sum + int_or0 (parseInt (prop agent "Answered")))
    validAgentPerformance 0.

(** Transfer Rate *)
Definition totalTransferred : Z :=
  fold_left
    (fun sum agent => sum + int_or0 (parseInt (prop agent "Transferred")))
    validAgentPerformance 0.

Definition transferRate : number :=
  if totalCalls >? 0
  then mul (div (of_Z totalTransferred) (of_Z totalCalls)) (of_Z 100)
  else zero.

(** Average Speed of Answer *)
Definition answeredInbound : list row :=
  List.filter (fun call => strict_eq (prop call "Abandoned") "NO") inboundCalls.

Definition totalQueueTime : exc number :=
  forEachM
    (fun total call =>
       let* queueTime := minutesOf call "Total Queue" in
       ret (add total queueTime))
    answeredInbound zero.

Definition avgSpeedOfAnswer : exc number :=
  let* totalQueueTime := totalQueueTime in
  ret (if len answeredInbound >? 0
       then div totalQueueTime (of_Z (len answeredInbound))
       else zero).

(** Average Handle Time *)
Definition totalHandleTime : exc number :=
  forEachM
    (fun total call =>
       let* handle := minutesOf call "Total Handle" in
       let total := add total handle in
       let* acw := minutesOf call "Total ACW" in
       ret (add total acw))
    answeredInbound zero.

Definition avgHandleTime : exc number :=
  let* totalHandleTime := totalHandleTime in
  ret (if len answeredInbound >? 0
       then div totalHandleTime (of_Z (len answeredInbound))
       else zero).

(** Utilization calculations: [totalLoggedTime] and [totalOnQueueTime]. *)
Definition loggedAndOnQueue : exc (number * number) :=
  forEachM
    (fun totals agent =>
       let* logged := minutesOf agent "Logged In" in
       let* onQueue := minutesOf agent "On Queue" in
       ret (add (fst totals) logged, add (snd totals) onQueue))
    validAgentStatus (zero, zero).

(** Calculate productive time from interactions *)
Definition allAnsweredCalls : list row :=
  List.filter (fun call => strict_eq (prop call "Abandoned") "NO")
    validInteractions.

Definition totalProductiveTime : exc number :=
  forEachM
    (fun total call =>
       let* handle := minutesOf call "Total Handle" in
       let total := add total handle in
       let* acw := minutesOf call "Total ACW" in
       ret (add total acw))
    allAnsweredCalls zero.

Definition productiveUtilization : exc number :=
  let* totals := loggedAndOnQueue in
  let* totalProductiveTime := totalProductiveTime in
  ret (if gt (fst totals) zero
       then mul (div totalProductiveTime (fst totals)) (of_Z 100)
       else zero).

Definition onQueueUtilization : exc number :=
  let* totals := loggedAndOnQueue in
  ret (if gt (fst totals) zero
       then mul (div (snd totals) (fst totals)) (of_Z 100)
       else zero).

(** Top 10 Queues by volume *)

Record QueueStat : Type := {
  stat_calls : Z;
  stat_abandoned : Z
}.

(** The body of [validInteractions.forEach] over [queueStats]. *)
Definition countCall (queueStats : list (string * QueueStat)) (call : row)
  : exc (list (string * QueueStat)) :=
  let queue := or_text (prop call "Queue") "Unknown" in
  let queueStats :=
    if negb (map_has queue queueStats)
    then map_set queue {| stat_calls := 0; stat_abandoned := 0 |} queueStats
    else queueStats in
  match map_get queue queueStats with
  | Some stat =>
      ret (map_set queue
             {| stat_calls := stat_calls stat + 1;
                stat_abandoned :=
                  if strict_eq (prop call "Abandoned") "YES"
                  then stat_abandoned stat + 1
                  else stat_abandoned stat |}
             queueStats)
  | None =>
      Throw (TypeError "Cannot read properties of undefined (reading 'calls')")
  end.

Definition queueStats : exc (list (string * QueueStat)) :=
  forEachM countCall validInteractions [].

Record QueueRow : Type := {
  queue_name : string;
  queue_calls : Z;
  queue_abandoned : Z;
  queue_rate : number
}.

Definition queueRow (entry : string * QueueStat) : QueueRow :=
  let '(name, stats) := entry in
  {| queue_name := name;
     queue_calls := stat_calls stats;
     queue_abandoned := stat_abandoned stats;
     queue_rate :=
       if stat_calls stats >? 0
       then mul (div (of_Z (stat_abandoned stats)) (of_Z (stat_calls stats)))
              (of_Z 100)
       else zero |}.

(** First get all queues and filter out unknown/empty ones and Backline
    queues *)
Definition allQueues : exc (list QueueRow) :=
  let* queueStats := queueStats in
  ret (List.filter
         (fun queue =>
            negb (String.eqb (queue_name queue) "Unknown")
            && negb (String.eqb (trim (queue_name queue)) "")
            && negb (includes "backline" (toLowerCase (queue_name queue))))
         (List.map queueRow queueStats)).

(** Get the top high-volume queues first, then sort by performance within
    that group *)
Definition topQueues : exc (list QueueRow) :=
  let* allQueues := allQueues in
  ret (firstn 9
         (sort (fun a b => sub (queue_rate a) (queue_rate b))
            (firstn 15
               (sort (fun a b => of_Z (queue_calls b - queue_calls a))
                  allQueues)))).

(** Agent Utilization Distribution *)

Record AgentUtilization : Type := {
  agent_name : string;
  agent_utilization : number
}.

Definition utilizationOf (agent : row) : exc AgentUtilization :=
  let* loggedTime := minutesOf agent "Logged In" in
  let* onQueueTime := minutesOf agent "On Queue" in
  ret {| agent_name :=
           or_text (prop agent "Agent Name")
             (or_text (prop agent "User Name") "Unknown");
         agent_utilization :=
           if gt loggedTime zero
           then mul (div onQueueTime loggedTime) (of_Z 100)
           else zero |}.

Definition agentUtilization : exc (list AgentUtilization) :=
  let* mapped :=
    forEachM
      (fun mapped agent =>
         let* entry := utilizationOf agent in
         ret (mapped ++ [entry])%list)
      validAgentStatus [] in
  ret (sort
         (fun a b => sub (agent_utilization b) (agent_utilization a))
         (List.filter (fun agent => gt (agent_utilization agent) zero)
            mapped)).

End metrics.


End Dashboard.

(** ** Sample tables *)

Module Examples.

Definition row_of (properties : list (string * string)) : row :=
  list_to_map properties.

(** Interaction rows. *)
Definition answered_inbound : row :=
  row_of [("Initial Direction", "Inbound"); ("Queue", "Support");
          ("Abandoned", "NO"); ("Total Queue", "0:01:30.000");
          ("Total Handle", "0:05:00.000"); ("Total ACW", "0:01:00.000")].

Definition abandoned_inbound : row :=
  row_of [("Initial Direction", "Inbound"); ("Queue", "Support");
          ("Abandoned", "YES"); ("Total Queue", "0:04:00.000")].

(** An inbound row whose Abandoned cell is empty. *)
Definition unflagged_inbound : row :=
  row_of [("Initial Direction", "Inbound"); ("Queue", "Support");
          ("Abandoned", "")].

(** An abandoned inbound row whose Queue cell is empty. *)
Definition unqueued_abandoned : row :=
  row_of [("Initial Direction", "Inbound"); ("Queue", "");
          ("Abandoned", "YES")].

(** Ten inbound interactions, one of them abandoned. *)
Definition ten_inbound_one_abandoned : list row :=
  repeat answered_inbound 9 ++ [abandoned_inbound].

(** Performance rows. *)
Definition agent_answering (answered transferred : string) : row :=
  row_of [("Agent Name", "Alice Martin"); ("Answered", answered);
          ("Transferred", transferred)].

Definition idle_agent : row := agent_answering "0" "0".

(** Status rows. *)
Definition status_row (logged onQueue : string) : row :=
  row_of [("Agent Name", "Alice Martin"); ("Logged In", logged);
          ("On Queue", onQueue)].

Definition logged_only (logged : string) : row :=
  row_of [("Agent Name", "Bob Stone"); ("Logged In", logged)].

Definition three_status_rows : list row :=
  [status_row "1:00:00.000" "0:30:00.000";
   status_row "2:00:00.000" "1:00:00.000";
   logged_only "0:00:00.000"].

(** A placeholder row, as the exports carry them, in both agent tables. *)
Definition template_agent : row :=
  row_of [("Agent Name", "Template Agent"); ("Answered", "50");
          ("Transferred", "5"); ("Logged In", "8:00:00.000");
          ("On Queue", "4:00:00.000")].

(** An outbound interaction. *)
Definition answered_outbound : row :=
  row_of [("Initial Direction", "Outbound"); ("Queue", "Sales");
          ("Abandoned", "NO"); ("Total Handle", "0:03:00.000")].

End Examples.

(** * Properties *)

(** ** Exceptions: when the combinators return *)

Section Combinators.

Context {A S : Type}.

Lemma filterM_total (p : A -> exc bool) (l : list A) :
  (forall x, exists b, p x = Ok b) ->
  exists r, filterM p l = Ok r.
Proof.
  intros Hp. induction l as [|x l [r IH]]; simpl.
  - eexists. reflexivity.
  - destruct (Hp x) as [b ->]. simpl. rewrite IH. simpl. eexists. reflexivity.
Qed.

Lemma forEachM_total (body : S -> A -> exc S) (l : list A) :
  (forall s x, exists s', body s x = Ok s') ->
  forall s, exists s', forEachM body l s = Ok s'.
Proof.
  intros Hb. induction l as [|x l IH]; intros s; simpl.
  - eexists. reflexivity.
  - destruct (Hb s x) as [s' ->]. simpl. apply IH.
Qed.

End Combinators.

(** ** The duration parser returns *)

Lemma parseTimeToMinutes_total (v : value) :
  exists n, MetricsCalculator.parseTimeToMinutes v = Ok n.
Proof.
  unfold MetricsCalculator.parseTimeToMinutes.
  destruct v as [s|]; simpl.
  - destruct (String.eqb s ""); simpl.
    + eexists. reflexivity.
    + destruct (String.eqb (trim s) ""); simpl.
      * eexists. reflexivity.
      * destruct (len (split ":" (trim s)) =? 3); eexists; reflexivity.
  - eexists. reflexivity.
Qed.

Lemma minutesOf_total (r : row) (name : string) :
  exists n, MetricsCalculator.minutesOf r name = Ok n.
Proof. apply parseTimeToMinutes_total. Qed.

(** ** The calculator returns *)

Lemma hasLoggedTime_total (agent : row) :
  exists b, MetricsCalculator.hasLoggedTime agent = Ok b.
Proof.
  unfold MetricsCalculator.hasLoggedTime.
  destruct (prop agent "Logged In") as [s|]; simpl.
  - destruct (String.eqb s ""); simpl; eexists; reflexivity.
  - eexists. reflexivity.
Qed.

Lemma validAgentStatus_total (agentStatus : list row) :
  exists l, MetricsCalculator.validAgentStatus agentStatus = Ok l.
Proof.
  apply filterM_total. intros agent.
  destruct (hasLoggedTime_total agent) as [b ->]. simpl. eexists. reflexivity.
Qed.

Ltac step_minutes :=
  match goal with
  | |- context [MetricsCalculator.minutesOf ?r ?n] =>
      let v := fresh "minutes" in
      let E := fresh "E" in
      destruct (minutesOf_total r n) as [v E]; rewrite E; clear E;
      cbn [bind]
  end.

Lemma statusStep_total (t : MetricsCalculator.StatusTotals) (agent : row) :
  exists t', MetricsCalculator.statusStep t agent = Ok t'.
Proof.
  unfold MetricsCalculator.statusStep.
  repeat step_minutes. eexists. reflexivity.
Qed.

Lemma statusLoop_total (validStatus : list row) :
  exists t, MetricsCalculator.statusLoop validStatus = Ok t.
Proof. apply forEachM_total, statusStep_total. Qed.

Lemma queueTimeLoop_total (trainingInteractions : list row) :
  exists q, MetricsCalculator.queueTimeLoop trainingInteractions = Ok q.
Proof.
  apply forEachM_total. intros [total samples] call.
  step_minutes. eexists. reflexivity.
Qed.

Lemma handleTimeLoop_total (trainingInteractions : list row) :
  exists h, MetricsCalculator.handleTimeLoop trainingInteractions = Ok h.
Proof.
  apply forEachM_total. intros [total samples] call.
  repeat step_minutes. eexists. reflexivity.
Qed.

Lemma productiveTimeLoop_total (trainingInteractions : list row) :
  exists p, MetricsCalculator.productiveTimeLoop trainingInteractions = Ok p.
Proof.
  apply forEachM_total. intros total call.
  repeat step_minutes. eexists. reflexivity.
Qed.

(** Every run returns the object that [report] assembles. *)
Lemma calculateDetailedMetrics_returns
  (agentPerformance agentStatus trainingInteractions timeSummary : list row) :
  exists validStatus queue handle t totalProductiveTime,
    MetricsCalculator.validAgentStatus agentStatus = Ok validStatus /\
    MetricsCalculator.statusLoop validStatus = Ok t /\
    MetricsCalculator.calculateDetailedMetrics agentPerformance agentStatus
      trainingInteractions timeSummary
    = Ok (MetricsCalculator.report agentPerformance agentStatus
            trainingInteractions validStatus (fst queue) (snd queue)
            (fst handle) (snd handle) t totalProductiveTime).
Proof.
  unfold MetricsCalculator.calculateDetailedMetrics.
  destruct (validAgentStatus_total agentStatus) as [validStatus Hs].
  destruct (queueTimeLoop_total trainingInteractions) as [queue Hq].
  destruct (handleTimeLoop_total trainingInteractions) as [handle Hh].
  destruct (statusLoop_total validStatus) as [t Ht].
  destruct (productiveTimeLoop_total trainingInteractions) as [p Hp].
  exists validStatus, queue, handle, t, p.
  rewrite Hs, Hq, Hh. cbn [bind]. rewrite Ht, Hp. cbn [bind].
  repeat split; reflexivity || assumption.
Qed.

(** ** Arithmetic of percentages *)

Lemma Qeq_bool_inject_Z_pos (d : Z) :
  0 < d -> Qeq_bool (inject_Z d) 0 = false.
Proof.
  intros Hd. destruct (Qeq_bool (inject_Z d) 0) eqn:E; [|reflexivity].
  apply Qeq_bool_eq in E. unfold Qeq in E. simpl in E. lia.
Qed.

(** [(n / d) * 100] on integers with [d > 0] is the rational n/d*100. *)
Lemma percent_value (n d : Z) :
  0 < d ->
  exists q : Q,
    mul (div (of_Z n) (of_Z d)) (of_Z 100) = Fin q /\
    (q == inject_Z n / inject_Z d * inject_Z 100)%Q.
Proof.
  intros Hd. unfold mul, div, of_Z.
  rewrite (Qeq_bool_inject_Z_pos d Hd).
  eexists. split; [reflexivity|].
  rewrite !Qred_correct. reflexivity.
Qed.

Lemma percent_bounds (n d : Z) (q : Q) :
  0 <= n <= d -> 0 < d ->
  (q == inject_Z n / inject_Z d * inject_Z 100)%Q ->
  (0 <= q /\ q <= 100)%Q.
Proof.
  intros [Hn Hnd] Hd Hq.
  assert (Hd' : (0 < inject_Z d)%Q).
  { change (inject_Z 0 < inject_Z d)%Q. rewrite <- Zlt_Qlt. exact Hd. }
  assert (H0 : (0 <= inject_Z n / inject_Z d)%Q).
  { apply Qle_shift_div_l; [exact Hd'|].
    rewrite Qmult_0_l. change (inject_Z 0 <= inject_Z n)%Q.
    rewrite <- Zle_Qle. exact Hn. }
  assert (H1 : (inject_Z n / inject_Z d <= 1)%Q).
  { apply Qle_shift_div_r; [exact Hd'|].
    rewrite Qmult_1_l. rewrite <- Zle_Qle. exact Hnd. }
  rewrite Hq. split.
  - apply Qmult_le_0_compat; [exact H0|]. discriminate.
  - apply Qle_trans with (1 * inject_Z 100)%Q; [|discriminate].
    apply Qmult_le_compat_r; [exact H1|]. discriminate.
Qed.

(** [x > k] on a finite [x] is the strict order of the rationals. *)
Lemma gt_Fin (q : Q) (k : Z) :
  gt (Fin q) (of_Z k) = true <-> (inject_Z k < q)%Q.
Proof.
  unfold gt, of_Z. rewrite negb_true_iff.
  split.
  - intros H. apply Qnot_le_lt. intros Hle.
    apply Qle_bool_iff in Hle. congruence.
  - intros H. destruct (Qle_bool q (inject_Z k)) eqn:E; [|reflexivity].
    apply Qle_bool_iff in E. apply Qlt_not_le in H. contradiction.
Qed.

(** ** Counting rows *)

Lemma len_nonneg {A : Type} (l : list A) : 0 <= len l.
Proof. unfold len. lia. Qed.

Lemma len_filter_le {A : Type} (p : A -> bool) (l : list A) :
  len (List.filter p l) <= len l.
Proof.
  unfold len. pose proof (List.filter_length_le p l). lia.
Qed.

Lemma answered_not_abandoned (call : row) :
  MetricsCalculator.isAnswered call = true ->
  MetricsCalculator.isAbandoned call = false.
Proof.
  unfold MetricsCalculator.isAnswered, MetricsCalculator.isAbandoned, strict_eq.
  destruct (prop call "Abandoned") as [s|]; [|discriminate].
  intros H. apply String.eqb_eq in H. subst s. reflexivity.
Qed.

(** When every row is flagged YES or NO, the answered rows are the rows
    that are not abandoned. *)
Lemma answered_count (l : list row) :
  Forall (fun call => MetricsCalculator.isAnswered call = true \/
                      MetricsCalculator.isAbandoned call = true) l ->
  len (List.filter MetricsCalculator.isAnswered l)
  = len l - len (List.filter MetricsCalculator.isAbandoned l).
Proof.
  unfold len. induction 1 as [|call l Hcall _ IH]; simpl; [reflexivity|].
  destruct (MetricsCalculator.isAnswered call) eqn:Ea.
  - rewrite (answered_not_abandoned call Ea). simpl length. lia.
  - destruct Hcall as [Hc|Hc]; [discriminate|]. rewrite Hc. simpl length. lia.
Qed.

(** * The claims *)

Import MetricsCalculator.

(** ** Total Calls *)

(** C1 (as amended).  Total Calls is the number of valid interaction rows
    whose Abandoned field is 'NO'.  When every valid row is flagged 'YES' or
    'NO', it is the number of valid rows minus the number of abandoned valid
    rows, exactly. *)
Theorem total_calls_valid_minus_abandoned
  (agentPerformance agentStatus trainingInteractions timeSummary : list row) :
  Forall (fun call => isAnswered call = true \/ isAbandoned call = true)
    (validInteractions trainingInteractions) ->
  exists r,
    calculateDetailedMetrics agentPerformance agentStatus trainingInteractions
      timeSummary = Ok r /\
    Report.totalCalls r
    = len (List.filter isAnswered (validInteractions trainingInteractions)) /\
    Report.totalCalls r
    = len (validInteractions trainingInteractions)
      - len (List.filter isAbandoned (validInteractions trainingInteractions)).
Proof.
  intros Hflags.
  destruct (calculateDetailedMetrics_returns agentPerformance agentStatus
              trainingInteractions timeSummary)
    as (vs & q & h & t & p & _ & _ & Hr).
  eexists. split; [exact Hr|]. cbn [Report.totalCalls report].
  unfold totalCalls, totalCallsFromInteractions.
  split; [reflexivity|]. apply answered_count, Hflags.
Qed.

Ltac eval_rows :=
  match goal with
  | |- Forall _ ?l => let l' := eval vm_compute in l in change l with l'
  end.

(** The scenario of the specification: ten inbound rows, one abandoned,
    give Total Calls = 9 = 10 - 1. *)
Lemma total_calls_valid_minus_abandoned_witness :
  exists r,
    calculateDetailedMetrics [] [] Examples.ten_inbound_one_abandoned [] = Ok r /\
    Report.totalCalls r = 9 /\
    Report.totalCalls r = 10 - 1.
Proof.
  destruct (total_calls_valid_minus_abandoned [] []
              Examples.ten_inbound_one_abandoned [])
    as (r & Hr & Hno & Hminus).
  - eval_rows.
    repeat (constructor; [vm_compute; auto|]). constructor.
  - exists r. split; [exact Hr|]. split.
    + rewrite Hno. vm_compute. reflexivity.
    + rewrite Hminus. vm_compute. reflexivity.
Defined.

(** C1 as stated fails: a valid row whose Abandoned cell is empty is neither
    counted in Total Calls nor abandoned. *)
Lemma total_calls_unflagged_row :
  exists r,
    calculateDetailedMetrics [] [] [Examples.unflagged_inbound] [] = Ok r /\
    Report.totalCalls r = 0 /\
    len (validInteractions [Examples.unflagged_inbound])
    - len (List.filter isAbandoned
             (validInteractions [Examples.unflagged_inbound])) = 1 /\
    Report.totalCalls r
    <> len (validInteractions [Examples.unflagged_inbound])
       - len (List.filter isAbandoned
                (validInteractions [Examples.unflagged_inbound])).
Proof.
  eexists. split; [vm_compute; reflexivity|].
  repeat split; vm_compute; congruence.
Qed.

(** ** The performance-table filter *)

Lemma parseInt_some_truthy (v : value) (z : Z) :
  parseInt v = Some z -> truthy v = true.
Proof.
  destruct v as [s|]; [|discriminate].
  destruct s; [discriminate|]. reflexivity.
Qed.

(** C6 (as amended).  A performance row is kept exactly when its Answered
    field parses to an integer greater than 0 and its agent name does not
    contain "Template"; a row whose Answered parses to 0 (an agent with no
    activity) is excluded. *)
Theorem valid_performance_rows (agentPerformance : list row) (agent : row) :
  (In agent (validAgentPerformance agentPerformance) <->
   In agent agentPerformance /\
   (exists answered,
      parseInt (prop agent "Answered") = Some answered /\ 0 < answered) /\
   notTemplate agent = true) /\
  (parseInt (prop agent "Answered") = Some 0 ->
   ~ In agent (validAgentPerformance agentPerformance)).
Proof.
  assert (Hiff :
    In agent (validAgentPerformance agentPerformance) <->
    In agent agentPerformance /\
    (exists answered,
       parseInt (prop agent "Answered") = Some answered /\ 0 < answered) /\
    notTemplate agent = true).
  { unfold validAgentPerformance. rewrite filter_In.
    unfold hasAnswered. rewrite !andb_true_iff.
    split.
    - intros (Hin & ((_ & _) & Hgt) & Hnt).
      repeat split; try assumption.
      destruct (parseInt (prop agent "Answered")) as [z|]; [|discriminate].
      exists z. split; [reflexivity|]. simpl in Hgt. lia.
    - intros (Hin & (z & Hz & Hpos) & Hnt).
      repeat split; try assumption.
      + eapply parseInt_some_truthy, Hz.
      + rewrite Hz. reflexivity.
      + rewrite Hz. simpl. lia. }
  split; [exact Hiff|].
  intros H0 Hin. apply Hiff in Hin. destruct Hin as (_ & (z & Hz & Hpos) & _).
  rewrite H0 in Hz. injection Hz as <-. lia.
Qed.

(** C6 as stated fails: Answered "0" parses as the integer 0, the row is not
    a template, and the filter drops it. *)
Lemma zero_answered_row_is_dropped :
  parseInt (prop Examples.idle_agent "Answered") = Some 0 /\
  notTemplate Examples.idle_agent = true /\
  validAgentPerformance [Examples.idle_agent] = [] /\
  ~ In Examples.idle_agent (validAgentPerformance [Examples.idle_agent]).
Proof.
  assert (H : validAgentPerformance [Examples.idle_agent] = [])
    by (vm_compute; reflexivity).
  repeat split; try (vm_compute; reflexivity); try exact H.
  rewrite H. intros [].
Qed.

Lemma valid_performance_rows_witness :
  In (Examples.agent_answering "100" "7")
    (validAgentPerformance
       [Examples.idle_agent; Examples.agent_answering "100" "7"]) /\
  ~ In Examples.idle_agent
      (validAgentPerformance
         [Examples.idle_agent; Examples.agent_answering "100" "7"]).
Proof.
  split.
  - apply (proj1 (valid_performance_rows
                    [Examples.idle_agent; Examples.agent_answering "100" "7"]
                    (Examples.agent_answering "100" "7"))).
    split; [right; left; reflexivity|].
    split; [exists 100; split; [vm_compute; reflexivity|lia]|].
    vm_compute. reflexivity.
  - apply (proj2 (valid_performance_rows
                    [Examples.idle_agent; Examples.agent_answering "100" "7"]
                    Examples.idle_agent)).
    vm_compute. reflexivity.
Defined.

(** ** Abandonment Rate *)



(** ** The two abandonment rates *)

Lemma strict_eq_truthy (v : value) (c : ascii) (s : string) :
  strict_eq v (String c s) = true -> truthy v = true.
Proof.
  destruct v as [t|]; [|discriminate]. simpl. intros H.
  apply String.eqb_eq in H. subst t. reflexivity.
Qed.

(** The inbound rows of the two filters coincide when every inbound row
    names its queue. *)
Lemma inboundCalls_agree (trainingInteractions : list row) :
  (forall call, In call trainingInteractions ->
     strict_eq (prop call "Initial Direction") "Inbound" = true ->
     truthy (prop call "Queue") = true) ->
  Dashboard.inboundCalls trainingInteractions = inboundCalls trainingInteractions.
Proof.
  unfold Dashboard.inboundCalls, inboundCalls, Dashboard.validInteractions,
    validInteractions.
  induction trainingInteractions as [|call l IH]; intros Hq; [reflexivity|].
  assert (IH' := IH (fun c Hc => Hq c (or_intror Hc))). clear IH.
  specialize (Hq call (or_introl eq_refl)).
  cbn [List.filter].
  destruct (strict_eq (prop call "Initial Direction") "Inbound") eqn:Ein.
  - rewrite (strict_eq_truthy _ _ _ Ein), (Hq eq_refl).
    cbn [andb List.filter]. rewrite Ein, IH'. reflexivity.
  - destruct (truthy (prop call "Initial Direction"));
      destruct (truthy (prop call "Queue"));
      cbn [andb List.filter]; rewrite ?Ein; exact IH'.
Qed.

(** C9 (as amended).  The Dashboard's inline Abandonment Rate equals the
    calculator's whenever every interaction row whose Initial Direction is
    'Inbound' has a non-empty Queue. *)
Theorem dashboard_abandonment_rate_agrees
  (agentPerformance agentStatus trainingInteractions timeSummary : list row) :
  (forall call, In call trainingInteractions ->
     strict_eq (prop call "Initial Direction") "Inbound" = true ->
     truthy (prop call "Queue") = true) ->
  exists r,
    calculateDetailedMetrics agentPerformance agentStatus trainingInteractions
      timeSummary = Ok r /\
    Dashboard.abandonmentRate trainingInteractions = Report.abandonmentRate r.
Proof.
  intros Hq.
  destruct (calculateDetailedMetrics_returns agentPerformance agentStatus
              trainingInteractions timeSummary)
    as (vs & q & h & t & p & _ & _ & Hr).
  eexists. split; [exact Hr|]. cbn [Report.abandonmentRate report].
  unfold Dashboard.abandonmentRate, abandonmentRate,
    Dashboard.abandonedCalls, abandonedCalls.
  rewrite (inboundCalls_agree trainingInteractions Hq). reflexivity.
Qed.

Lemma dashboard_abandonment_rate_agrees_witness :
  exists r,
    calculateDetailedMetrics [] [] Examples.ten_inbound_one_abandoned [] = Ok r /\
    Dashboard.abandonmentRate Examples.ten_inbound_one_abandoned
    = Report.abandonmentRate r /\
    Report.abandonmentRate r = of_Z 10.
Proof.
  destruct (dashboard_abandonment_rate_agrees [] []
              Examples.ten_inbound_one_abandoned [])
    as (r & Hr & Heq).
  - intros call Hin _.
    repeat (destruct Hin as [<-|Hin]; [vm_compute; reflexivity|]).
    destruct Hin.
  - exists r. split; [exact Hr|]. split; [exact Heq|].
    rewrite <- Heq. vm_compute. reflexivity.
Defined.

(** C9 as stated fails: the Dashboard keeps an inbound row whose Queue cell
    is empty and the calculator drops it. *)
Lemma dashboard_abandonment_rate_differs :
  exists r,
    calculateDetailedMetrics [] [] [Examples.unqueued_abandoned] [] = Ok r /\
    Dashboard.abandonmentRate [Examples.unqueued_abandoned] = of_Z 100 /\
    Report.abandonmentRate r = zero /\
    Dashboard.abandonmentRate [Examples.unqueued_abandoned]
    <> Report.abandonmentRate r.
Proof.
  eexists. split; [vm_compute; reflexivity|].
  repeat split; vm_compute; congruence.
Qed.

(** ** Transfer Rate *)

Lemma fold_sum_ge {A : Type} (f : A -> Z) (l : list A) :
  (forall x, In x l -> 0 <= f x) ->
  forall acc, acc <= fold_left (fun sum x => sum + f x) l acc.
Proof.
  induction l as [|x l IH]; intros Hf acc; simpl; [lia|].
  assert (Hx : 0 <= f x) by (apply Hf; left; reflexivity).
  assert (Hl := IH (fun y Hy => Hf y (or_intror Hy)) (acc + f x)).
  lia.
Qed.

(** The answered calls summed over the valid performance rows are never
    negative: every valid row answered at least one call. *)
Lemma answered_total_nonneg (agentPerformance : list row) :
  0 <= sumInt "Answered" (validAgentPerformance agentPerformance).
Proof.
  unfold sumInt. apply fold_sum_ge.
  intros agent Hin. unfold validAgentPerformance in Hin.
  apply filter_In in Hin. destruct Hin as [_ Hv].
  apply andb_true_iff in Hv. destruct Hv as [Hv _].
  unfold hasAnswered in Hv. apply andb_true_iff in Hv. destruct Hv as [_ Hv].
  destruct (parseInt (prop agent "Answered")) as [z|]; simpl in *; lia.
Qed.

(** C2.  The Transfer Rate is the value of (sum of Transferred / sum of
    Answered) * 100 over the valid performance rows, as the division and
    the multiplication of the code compute it, and 0 when that sum of
    Answered is 0; the trace records this value as the reported rate and,
    next to it, the rate against the answered interactions, and the result
    text renders the two. *)
Theorem transfer_rate_from_performance_table
  (agentPerformance agentStatus trainingInteractions timeSummary : list row) :
  exists r,
    calculateDetailedMetrics agentPerformance agentStatus trainingInteractions
      timeSummary = Ok r /\
    (sumInt "Answered" (validAgentPerformance agentPerformance) = 0 ->
     Report.transferRate r = zero) /\
    (sumInt "Answered" (validAgentPerformance agentPerformance) <> 0 ->
     Report.transferRate r
     = mul (div (of_Z (sumInt "Transferred"
                         (validAgentPerformance agentPerformance)))
              (of_Z (sumInt "Answered"
                       (validAgentPerformance agentPerformance))))
         (of_Z 100)) /\
    Report.reportedRate
      (Report.values (Report.cd_transferRate (Report.calculationDetails r)))
    = Report.transferRate r /\
    Report.mixedSourceRate
      (Report.values (Report.cd_transferRate (Report.calculationDetails r)))
    = (if Report.totalCalls r >? 0
       then mul (div (of_Z (sumInt "Transferred"
                              (validAgentPerformance agentPerformance)))
                   (of_Z (Report.totalCalls r)))
              (of_Z 100)
       else zero) /\
    Report.totalCalls r
    = len (List.filter isAnswered (validInteractions trainingInteractions)) /\
    Report.result (Report.cd_transferRate (Report.calculationDetails r))
    = Report.RText
        (toFixed (Report.transferRate r) 2
         ++ "% (Agent Perf baseline) - Mixed source would show "
         ++ toFixed
              (Report.mixedSourceRate
                 (Report.values
                    (Report.cd_transferRate (Report.calculationDetails r))))
              2
         ++ "%").
Proof.
  destruct (calculateDetailedMetrics_returns agentPerformance agentStatus
              trainingInteractions timeSummary)
    as (vs & q & h & t & p & _ & _ & Hr).
  eexists. split; [exact Hr|].
  cbn [Report.transferRate Report.totalCalls Report.calculationDetails
       Report.cd_transferRate report].
  pose proof (answered_total_nonneg agentPerformance) as Hnn.
  assert (Hrate : transferRate agentPerformance
                  = if sumInt "Answered" (validAgentPerformance agentPerformance)
                       >? 0
                    then mul (div (of_Z (sumInt "Transferred"
                                           (validAgentPerformance
                                              agentPerformance)))
                                (of_Z (sumInt "Answered"
                                         (validAgentPerformance
                                            agentPerformance))))
                           (of_Z 100)
                    else zero) by reflexivity.
  split; [|split; [|repeat split]].
  - intros H0. rewrite Hrate, H0. reflexivity.
  - intros Hne.
    assert (Hpos : 0 < sumInt "Answered" (validAgentPerformance agentPerformance))
      by lia.
    rewrite Hrate. rewrite (proj2 (Z.gtb_lt _ _) Hpos). reflexivity.
Qed.

Lemma transfer_rate_from_performance_table_witness :
  exists r,
    calculateDetailedMetrics [Examples.agent_answering "200" "10"] []
      (repeat Examples.answered_inbound 8) [] = Ok r /\
    Report.transferRate r = of_Z 5 /\
    Report.mixedSourceRate
      (Report.values (Report.cd_transferRate (Report.calculationDetails r)))
    = of_Z 125.
Proof.
  destruct (transfer_rate_from_performance_table
              [Examples.agent_answering "200" "10"] []
              (repeat Examples.answered_inbound 8) [])
    as (r & Hr & _ & Hrate & _ & Hmixed & Hcalls & _).
  exists r. split; [exact Hr|]. split.
  - rewrite Hrate; [vm_compute; reflexivity|vm_compute; discriminate].
  - rewrite Hmixed, Hcalls. vm_compute. reflexivity.
Defined.

(** ** Reconciliation *)

Lemma reconciliation_result_cases
  (agentPerformance trainingInteractions validStatus : list row) :
  Report.result
    (dataReconciliation agentPerformance trainingInteractions validStatus)
  = Report.RText
      (if gt (discrepancyPercent agentPerformance trainingInteractions)
            (of_Z 30)
       then "🚨 "
            ++ toFixed (discrepancyPercent agentPerformance trainingInteractions)
                 2
            ++ "% discrepancy - URGENT DATA ISSUE"
       else if gt (discrepancyPercent agentPerformance trainingInteractions)
                 (of_Z 5)
       then "⚠️ "
            ++ toFixed (discrepancyPercent agentPerformance trainingInteractions)
                 2
            ++ "% discrepancy - DATA INTEGRITY ISSUE"
       else "✅ "
            ++ toFixed (discrepancyPercent agentPerformance trainingInteractions)
                 2
            ++ "% variance - acceptable").
Proof. reflexivity. Qed.

Lemma gt_Fin_false (q : Q) (k : Z) :
  (q <= inject_Z k)%Q -> gt (Fin q) (of_Z k) = false.
Proof.
  intros H. destruct (gt (Fin q) (of_Z k)) eqn:E; [|reflexivity].
  apply gt_Fin in E. apply Qlt_not_le in E. contradiction.
Qed.


(** With A = 100 the percentage is |100 - B|, to be rendered as it is. *)
Lemma discrepancyPercent_of_100 (agentPerformance trainingInteractions : list row)
  (B : Z) :
  agentPerformanceTotal agentPerformance = 100 ->
  interactionsAnsweredTotal trainingInteractions = B ->
  discrepancyPercent agentPerformance trainingInteractions
  = mul (div (of_Z (Z.abs (100 - B))) (of_Z 100)) (of_Z 100).
Proof.
  intros HA HB. unfold discrepancyPercent, callDiscrepancy.
  rewrite HA, HB. reflexivity.
Qed.

(** C3.  With A the answered calls summed over the valid performance rows
    and B the number of answered valid interactions, the reconciliation
    trace computes |A - B| / A * 100 when A > 0 and 0 otherwise, with the
    division and the multiplication of the code.  On the value that this
    computation yields, the result reads "acceptable" up to 5,
    "data integrity issue" above 5 and up to 30, and "urgent" above 30, and
    renders that value with two decimals; totals 100 and 104 give 4 and
    acceptable, 100 and 120 give 20 and the warning, 100 and 140 give 40
    and urgent. *)
Theorem reconciliation_severity
  (agentPerformance agentStatus trainingInteractions timeSummary : list row) :
  exists r,
    calculateDetailedMetrics agentPerformance agentStatus trainingInteractions
      timeSummary = Ok r /\
    agentPerformanceTotal agentPerformance
    = sumInt "Answered" (validAgentPerformance agentPerformance) /\
    interactionsAnsweredTotal trainingInteractions
    = len (List.filter isAnswered (validInteractions trainingInteractions)) /\
    discrepancyPercent agentPerformance trainingInteractions
    = (if agentPerformanceTotal agentPerformance >? 0
       then mul (div (of_Z (Z.abs (agentPerformanceTotal agentPerformance
                                   - interactionsAnsweredTotal
                                       trainingInteractions)))
                   (of_Z (agentPerformanceTotal agentPerformance)))
              (of_Z 100)
       else zero) /\
    Report.rv_discrepancyPercent
      (Report.values
         (Report.cd_dataReconciliation (Report.calculationDetails r)))
    = toFixed (discrepancyPercent agentPerformance trainingInteractions) 2
      ++ "%" /\
    (forall pct : Q,
       discrepancyPercent agentPerformance trainingInteractions = Fin pct ->
       ((pct <= 5)%Q ->
        Report.result
          (Report.cd_dataReconciliation (Report.calculationDetails r))
        = Report.RText
            ("✅ " ++ toFixed (Fin pct) 2 ++ "% variance - acceptable")) /\
       ((5 < pct)%Q /\ (pct <= 30)%Q ->
        Report.result
          (Report.cd_dataReconciliation (Report.calculationDetails r))
        = Report.RText
            ("⚠️ " ++ toFixed (Fin pct) 2
             ++ "% discrepancy - DATA INTEGRITY ISSUE")) /\
       ((30 < pct)%Q ->
        Report.result
          (Report.cd_dataReconciliation (Report.calculationDetails r))
        = Report.RText
            ("🚨 " ++ toFixed (Fin pct) 2
             ++ "% discrepancy - URGENT DATA ISSUE"))) /\
    (agentPerformanceTotal agentPerformance = 100 ->
     interactionsAnsweredTotal trainingInteractions = 104 ->
     discrepancyPercent agentPerformance trainingInteractions = of_Z 4 /\
     Report.result (Report.cd_dataReconciliation (Report.calculationDetails r))
     = Report.RText "✅ 4.00% variance - acceptable") /\
    (agentPerformanceTotal agentPerformance = 100 ->
     interactionsAnsweredTotal trainingInteractions = 120 ->
     discrepancyPercent agentPerformance trainingInteractions = of_Z 20 /\
     Report.result (Report.cd_dataReconciliation (Report.calculationDetails r))
     = Report.RText "⚠️ 20.00% discrepancy - DATA INTEGRITY ISSUE") /\
    (agentPerformanceTotal agentPerformance = 100 ->
     interactionsAnsweredTotal trainingInteractions = 140 ->
     discrepancyPercent agentPerformance trainingInteractions = of_Z 40 /\
     Report.result (Report.cd_dataReconciliation (Report.calculationDetails r))
     = Report.RText "🚨 40.00% discrepancy - URGENT DATA ISSUE").
Proof.
  destruct (calculateDetailedMetrics_returns agentPerformance agentStatus
              trainingInteractions timeSummary)
    as (vs & q & h & t & p & _ & _ & Hr).
  eexists. split; [exact Hr|].
  cbn [Report.calculationDetails Report.cd_dataReconciliation report].
  rewrite reconciliation_result_cases.
  split; [reflexivity|]. split; [reflexivity|]. split; [reflexivity|].
  split; [reflexivity|].
  split; [|split; [|split]].
  - intros pct Hpct. rewrite Hpct. split; [|split].
    + intros H5.
      rewrite (gt_Fin_false pct 30), (gt_Fin_false pct 5);
        [reflexivity|exact H5|].
      apply Qle_trans with 5%Q; [exact H5|discriminate].
    + intros [H5 H30].
      rewrite (gt_Fin_false pct 30 H30), (proj2 (gt_Fin pct 5) H5).
      reflexivity.
    + intros H30. rewrite (proj2 (gt_Fin pct 30) H30). reflexivity.
  - intros HA HB.
    rewrite (discrepancyPercent_of_100 agentPerformance trainingInteractions
               104 HA HB).
    split; vm_compute; reflexivity.
  - intros HA HB.
    rewrite (discrepancyPercent_of_100 agentPerformance trainingInteractions
               120 HA HB).
    split; vm_compute; reflexivity.
  - intros HA HB.
    rewrite (discrepancyPercent_of_100 agentPerformance trainingInteractions
               140 HA HB).
    split; vm_compute; reflexivity.
Qed.

Lemma reconciliation_severity_witness :
  (exists r,
     calculateDetailedMetrics [Examples.agent_answering "100" "7"] []
       (repeat Examples.answered_inbound 104) [] = Ok r /\
     Report.result (Report.cd_dataReconciliation (Report.calculationDetails r))
     = Report.RText "✅ 4.00% variance - acceptable") /\
  (exists r,
     calculateDetailedMetrics [Examples.agent_answering "100" "7"] []
       (repeat Examples.answered_inbound 120) [] = Ok r /\
     Report.result (Report.cd_dataReconciliation (Report.calculationDetails r))
     = Report.RText "⚠️ 20.00% discrepancy - DATA INTEGRITY ISSUE") /\
  (exists r,
     calculateDetailedMetrics [Examples.agent_answering "100" "7"] []
       (repeat Examples.answered_inbound 140) [] = Ok r /\
     Report.result (Report.cd_dataReconciliation (Report.calculationDetails r))
     = Report.RText "🚨 40.00% discrepancy - URGENT DATA ISSUE").
Proof.
  split; [|split].
  - destruct (reconciliation_severity [Examples.agent_answering "100" "7"] []
                (repeat Examples.answered_inbound 104) [])
      as (r & Hr & _ & _ & _ & _ & _ & H & _ & _).
    exists r. split; [exact Hr|]. apply H; vm_compute; reflexivity.
  - destruct (reconciliation_severity [Examples.agent_answering "100" "7"] []
                (repeat Examples.answered_inbound 120) [])
      as (r & Hr & _ & _ & _ & _ & _ & _ & H & _).
    exists r. split; [exact Hr|]. apply H; vm_compute; reflexivity.
  - destruct (reconciliation_severity [Examples.agent_answering "100" "7"] []
                (repeat Examples.answered_inbound 140) [])
      as (r & Hr & _ & _ & _ & _ & _ & _ & _ & H).
    exists r. split; [exact Hr|]. apply H; vm_compute; reflexivity.
Defined.

(** ** Division by zero in the traces *)

(** C5 at its failing inputs.  On empty tables the reconciliation trace's
    possibleCallsPerMissingAgent is NaN and the transfer-rate trace's
    potentialUnderstatement is "NaN%"; with one performance row, one status
    row and no interaction, possibleCallsPerMissingAgent is Infinity. *)
Theorem trace_ratios_unguarded :
  (exists r,
     calculateDetailedMetrics [] [] [] [] = Ok r /\
     Report.missingAgents
       (Report.agentCoverage
          (Report.values
             (Report.cd_dataReconciliation (Report.calculationDetails r))))
     = 0 /\
     Report.possibleCallsPerMissingAgent
       (Report.agentCoverage
          (Report.values
             (Report.cd_dataReconciliation (Report.calculationDetails r))))
     = NaN /\
     Report.agentPerformanceRate
       (Report.values (Report.cd_transferRate (Report.calculationDetails r)))
     = zero /\
     Report.potentialUnderstatement
       (Report.values (Report.cd_transferRate (Report.calculationDetails r)))
     = "NaN%") /\
  (exists r,
     calculateDetailedMetrics [Examples.agent_answering "5" "1"]
       [Examples.status_row "1:00:00.000" "0:30:00.000"] [] [] = Ok r /\
     Report.missingAgents
       (Report.agentCoverage
          (Report.values
             (Report.cd_dataReconciliation (Report.calculationDetails r))))
     = 0 /\
     Report.possibleCallsPerMissingAgent
       (Report.agentCoverage
          (Report.values
             (Report.cd_dataReconciliation (Report.calculationDetails r))))
     = Infinity false).
Proof.
  split; eexists; (split; [vm_compute; reflexivity|]);
    repeat split; vm_compute; reflexivity.
Qed.

(** ** Totality *)

(** C10.  For all tables of text rows the calculator returns a report and
    does not throw; the report carries the eight KPI values, and the trace of
    each KPI records that value. *)
Theorem calculateDetailedMetrics_total
  (agentPerformance agentStatus trainingInteractions timeSummary : list row) :
  exists r,
    calculateDetailedMetrics agentPerformance agentStatus trainingInteractions
      timeSummary = Ok r /\
    Report.result (Report.cd_totalCalls (Report.calculationDetails r))
    = Report.RNumber (of_Z (Report.totalCalls r)) /\
    Report.reportedRate
      (Report.values (Report.cd_transferRate (Report.calculationDetails r)))
    = Report.transferRate r /\
    Report.result (Report.cd_productiveUtilization (Report.calculationDetails r))
    = Report.RNumber (Report.productiveUtilization r) /\
    Report.result (Report.cd_onQueueUtilization (Report.calculationDetails r))
    = Report.RNumber (Report.onQueueUtilization r) /\
    Report.result (Report.cd_avgSpeedOfAnswer (Report.calculationDetails r))
    = Report.RNumber (Report.avgSpeedOfAnswer r) /\
    Report.result (Report.cd_abandonmentRate (Report.calculationDetails r))
    = Report.RNumber (Report.abandonmentRate r) /\
    Report.result (Report.cd_avgHandleTime (Report.calculationDetails r))
    = Report.RNumber (Report.avgHandleTime r) /\
    Report.result (Report.cd_shrinkage (Report.calculationDetails r))
    = Report.RNumber (Report.shrinkage r).
Proof.
  destruct (calculateDetailedMetrics_returns agentPerformance agentStatus
              trainingInteractions timeSummary)
    as (vs & q & h & t & p & _ & _ & Hr).
  eexists. split; [exact Hr|]. repeat split.
Qed.

(** ** On-Queue Utilization *)

Lemma forEachM_cons_inv {A S : Type} (body : S -> A -> exc S) (x : A)
  (l : list A) (s t : S) :
  forEachM body (x :: l) s = Ok t ->
  exists s', body s x = Ok s' /\ forEachM body l s' = Ok t.
Proof.
  simpl. destruct (body s x) as [s'|e]; simpl; [|discriminate].
  intros H. exists s'. split; [reflexivity|exact H].
Qed.

(** One pass of the status loop adds the row's logged-in and on-queue
    minutes to the running totals. *)
Lemma statusStep_totals (t t' : StatusTotals) (agent : row) (logged onQueue : number) :
  minutesOf agent "Logged In" = Ok logged ->
  minutesOf agent "On Queue" = Ok onQueue ->
  statusStep t agent = Ok t' ->
  totalLoggedTime t' = add (totalLoggedTime t) logged /\
  totalOnQueueTime t' = add (totalOnQueueTime t) onQueue.
Proof.
  intros Hl Hq. unfold statusStep. rewrite Hl, Hq. cbn [bind].
  repeat step_minutes. intros H. injection H as <-. split; reflexivity.
Qed.

Lemma minutesOf_present (agent : row) (name text : string) (n : number) :
  prop agent name = Some text ->
  parseTimeToMinutes (Some (or_text (Some text) "0:00:00.000")) = Ok n ->
  minutesOf agent name = Ok n.
Proof. intros Hp Hn. unfold minutesOf. rewrite Hp. exact Hn. Qed.

Lemma minutesOf_absent (agent : row) (name : string) :
  prop agent name = None -> minutesOf agent name = Ok zero.
Proof. intros Hp. unfold minutesOf. rewrite Hp. vm_compute. reflexivity. Qed.

(** C8.  Three status rows logged in for "1:00:00.000", "2:00:00.000" and
    "0:00:00.000", the first two on queue for "0:30:00.000" and
    "1:00:00.000", give an On-Queue Utilization of (30+60)/(60+120)*100 = 50. *)
Theorem on_queue_utilization_scenario (first second third : row)
  (agentPerformance trainingInteractions timeSummary : list row) :
  prop first "Logged In" = Some "1:00:00.000" ->
  prop first "On Queue" = Some "0:30:00.000" ->
  prop second "Logged In" = Some "2:00:00.000" ->
  prop second "On Queue" = Some "1:00:00.000" ->
  prop third "Logged In" = Some "0:00:00.000" ->
  prop third "On Queue" = None ->
  notTemplate first = true ->
  notTemplate second = true ->
  exists r,
    calculateDetailedMetrics agentPerformance [first; second; third]
      trainingInteractions timeSummary = Ok r /\
    Report.onQueueUtilization r
    = mul (div (add (of_Z 30) (of_Z 60)) (add (of_Z 60) (of_Z 120))) (of_Z 100) /\
    Report.onQueueUtilization r = of_Z 50.
Proof.
  intros L1 Q1 L2 Q2 L3 Q3 N1 N2.
  destruct (calculateDetailedMetrics_returns agentPerformance
              [first; second; third] trainingInteractions timeSummary)
    as (vs & q & h & t & p & Hvs & Ht & Hr).
  eexists. split; [exact Hr|]. cbn [Report.onQueueUtilization report].
  assert (M1 : minutesOf first "Logged In" = Ok (of_Z 60))
    by (eapply minutesOf_present; [exact L1|vm_compute; reflexivity]).
  assert (O1 : minutesOf first "On Queue" = Ok (of_Z 30))
    by (eapply minutesOf_present; [exact Q1|vm_compute; reflexivity]).
  assert (M2 : minutesOf second "Logged In" = Ok (of_Z 120))
    by (eapply minutesOf_present; [exact L2|vm_compute; reflexivity]).
  assert (O2 : minutesOf second "On Queue" = Ok (of_Z 60))
    by (eapply minutesOf_present; [exact Q2|vm_compute; reflexivity]).
  assert (M3 : minutesOf third "Logged In" = Ok zero)
    by (eapply minutesOf_present; [exact L3|vm_compute; reflexivity]).
  assert (O3 : minutesOf third "On Queue" = Ok zero)
    by (apply minutesOf_absent, Q3).
  unfold validAgentStatus, filterM, hasLoggedTime in Hvs.
  rewrite L1, L2, L3, N1, N2 in Hvs. cbn in Hvs.
  unfold statusLoop in Ht.
  destruct (notTemplate third); injection Hvs as <-.
  - apply forEachM_cons_inv in Ht. destruct Ht as (t1 & H1 & Ht).
    apply forEachM_cons_inv in Ht. destruct Ht as (t2 & H2 & Ht).
    apply forEachM_cons_inv in Ht. destruct Ht as (t3 & H3 & Ht).
    injection Ht as <-.
    destruct (statusStep_totals _ _ _ _ _ M1 O1 H1) as [E1 F1].
    destruct (statusStep_totals _ _ _ _ _ M2 O2 H2) as [E2 F2].
    destruct (statusStep_totals _ _ _ _ _ M3 O3 H3) as [E3 F3].
    rewrite E3, F3, E2, F2, E1, F1. split; vm_compute; reflexivity.
  - apply forEachM_cons_inv in Ht. destruct Ht as (t1 & H1 & Ht).
    apply forEachM_cons_inv in Ht. destruct Ht as (t2 & H2 & Ht).
    injection Ht as <-.
    destruct (statusStep_totals _ _ _ _ _ M1 O1 H1) as [E1 F1].
    destruct (statusStep_totals _ _ _ _ _ M2 O2 H2) as [E2 F2].
    rewrite E2, F2, E1, F1. split; vm_compute; reflexivity.
Qed.

Lemma on_queue_utilization_scenario_witness :
  exists r,
    calculateDetailedMetrics [] Examples.three_status_rows [] [] = Ok r /\
    Report.onQueueUtilization r = of_Z 50.
Proof.
  destruct (on_queue_utilization_scenario
              (Examples.status_row "1:00:00.000" "0:30:00.000")
              (Examples.status_row "2:00:00.000" "1:00:00.000")
              (Examples.logged_only "0:00:00.000") [] [] [])
    as (r & Hr & _ & H50); try (vm_compute; reflexivity).
  exists r. split; [exact Hr|exact H50].
Defined.

(** The third row of that table is kept by the status filter: its
    "Logged In" text is not empty.  It adds 0 to both totals. *)
Remark zero_logged_row_is_kept :
  validAgentStatus Examples.three_status_rows = Ok Examples.three_status_rows.
Proof. vm_compute. reflexivity. Qed.

(** ** The duration parser *)

(** [split] yields one part more than there are separators. *)
Lemma split_length (sep : ascii) (s : string) :
  List.length (split sep s)
  = S (count_occ ascii_dec (list_ascii_of_string s) sep).
Proof.
  induction s as [|c s IH]; [reflexivity|].
  cbn [split list_ascii_of_string].
  destruct (Ascii.eqb c sep) eqn:E.
  - apply Ascii.eqb_eq in E. subst c.
    rewrite count_occ_cons_eq by reflexivity. simpl. rewrite IH. reflexivity.
  - apply Ascii.eqb_neq in E.
    rewrite count_occ_cons_neq by exact E.
    destruct (split sep s) as [|part parts]; [discriminate|exact IH].
Qed.

Lemma trimStart_count (c : ascii) (s : string) :
  isWhiteSpace c = false ->
  count_occ ascii_dec (list_ascii_of_string (trimStart s)) c
  = count_occ ascii_dec (list_ascii_of_string s) c.
Proof.
  intros Hc. induction s as [|a s IH]; [reflexivity|].
  cbn [trimStart]. destruct (isWhiteSpace a) eqn:Ea; [|reflexivity].
  cbn [list_ascii_of_string]. rewrite count_occ_cons_neq; [exact IH|].
  intros ->. congruence.
Qed.

Lemma reverse_count (c : ascii) (s : string) :
  count_occ ascii_dec (list_ascii_of_string (reverse s)) c
  = count_occ ascii_dec (list_ascii_of_string s) c.
Proof.
  unfold reverse. rewrite list_ascii_of_string_of_list_ascii.
  apply count_occ_rev.
Qed.

Lemma trim_count (c : ascii) (s : string) :
  isWhiteSpace c = false ->
  count_occ ascii_dec (list_ascii_of_string (trim s)) c
  = count_occ ascii_dec (list_ascii_of_string s) c.
Proof.
  intros Hc. unfold trim, trimEnd.
  rewrite reverse_count, trimStart_count, reverse_count, trimStart_count
    by exact Hc.
  reflexivity.
Qed.

(** Trimming does not change the number of colon-separated parts. *)
Lemma split_trim_length (s : string) :
  List.length (split ":" (trim s)) = List.length (split ":" s).
Proof. rewrite !split_length, trim_count; reflexivity. Qed.

(** The parse of a text in three parts. *)
Lemma parseTimeToMinutes_three_parts (s h m sec : string) :
  split ":" (trim s) = [h; m; sec] ->
  parseTimeToMinutes (Some s)
  = Ok (add (of_Z (int_or0 (parseInt (Some h)) * 60
                   + int_or0 (parseInt (Some m))))
          (div (num_or0 (parseFloat (Some sec))) (of_Z 60))).
Proof.
  intros Hparts. unfold parseTimeToMinutes.
  assert (Htrim : String.eqb (trim s) "" = false).
  { destruct (trim s); [discriminate Hparts|reflexivity]. }
  assert (Hs : String.eqb s "" = false).
  { destruct s; [discriminate Hparts|reflexivity]. }
  cbn [truthy method_trim negb bind ret]. rewrite Hs. cbn [negb bind ret].
  rewrite Htrim, Hparts. reflexivity.
Qed.

(** C4.  The duration parser returns for every argument (it never throws),
    and so does [parseTimeToSeconds]; the result is 0 for the empty string,
    for a missing value, for "0:00:00.000" and for every text that does not
    split into exactly three parts at colons; in a text of three parts a
    component that is not numeric counts as 0 and the other components are
    still read. *)
Theorem duration_parser_total :
  (forall v : value,
     exists n,
       parseTimeToMinutes v = Ok n /\
       parseTimeToSeconds v = Ok (mul n (of_Z 60))) /\
  parseTimeToMinutes (Some "") = Ok zero /\
  parseTimeToMinutes undefined = Ok zero /\
  parseTimeToMinutes (Some "0:00:00.000") = Ok zero /\
  (forall s : string,
     List.length (split ":" s) <> 3%nat ->
     parseTimeToMinutes (Some s) = Ok zero) /\
  (forall s h m sec : string,
     split ":" (trim s) = [h; m; sec] ->
     parseTimeToMinutes (Some s)
     = Ok (add (of_Z (int_or0 (parseInt (Some h)) * 60
                      + int_or0 (parseInt (Some m))))
             (div (num_or0 (parseFloat (Some sec))) (of_Z 60))) /\
     (parseInt (Some h) = None ->
      parseTimeToMinutes (Some s)
      = Ok (add (of_Z (0 * 60 + int_or0 (parseInt (Some m))))
              (div (num_or0 (parseFloat (Some sec))) (of_Z 60)))) /\
     (parseInt (Some m) = None ->
      parseTimeToMinutes (Some s)
      = Ok (add (of_Z (int_or0 (parseInt (Some h)) * 60 + 0))
              (div (num_or0 (parseFloat (Some sec))) (of_Z 60)))) /\
     (parseFloat (Some sec) = NaN ->
      parseTimeToMinutes (Some s)
      = Ok (add (of_Z (int_or0 (parseInt (Some h)) * 60
                       + int_or0 (parseInt (Some m))))
              (div zero (of_Z 60))))).
Proof.
  split; [|split; [|split; [|split; [|split]]]].
  - intros v. destruct (parseTimeToMinutes_total v) as [n Hn].
    exists n. split; [exact Hn|].
    unfold parseTimeToSeconds. rewrite Hn. reflexivity.
  - vm_compute. reflexivity.
  - vm_compute. reflexivity.
  - vm_compute. reflexivity.
  - intros s Hlen. unfold parseTimeToMinutes.
    cbn [truthy method_trim negb bind ret].
    destruct (String.eqb s ""); cbn [negb bind ret]; [reflexivity|].
    destruct (String.eqb (trim s) ""); cbn [negb bind ret]; [reflexivity|].
    destruct (len (split ":" (trim s)) =? 3) eqn:E; [|reflexivity].
    apply Z.eqb_eq in E. unfold len in E. rewrite split_trim_length in E.
    exfalso. apply Hlen. lia.
  - intros s h m sec Hparts.
    pose proof (parseTimeToMinutes_three_parts s h m sec Hparts) as H.
    split; [exact H|]. split; [|split].
    + intros Hh. rewrite H, Hh. reflexivity.
    + intros Hm. rewrite H, Hm. reflexivity.
    + intros Hsec. rewrite H, Hsec. reflexivity.
Qed.

Lemma duration_parser_total_witness :
  parseTimeToMinutes (Some "12:30") = Ok zero /\
  parseTimeToMinutes (Some "1:02:03:04") = Ok zero /\
  parseTimeToMinutes (Some " 1:30:15 ") = Ok (Fin (361 # 4)) /\
  parseTimeToMinutes (Some "abc:30:15")
  = Ok (add (of_Z (0 * 60 + 30)) (div (of_Z 15) (of_Z 60))) /\
  parseTimeToMinutes (Some "2:xx:yy")
  = Ok (add (of_Z (2 * 60 + 0)) (div zero (of_Z 60))).
Proof.
  destruct duration_parser_total as (_ & _ & _ & _ & Hparts & Hthree).
  split; [apply Hparts; vm_compute; lia|].
  split; [apply Hparts; vm_compute; lia|].
  split.
  - destruct (Hthree " 1:30:15 " "1" "30" "15") as [H _];
      [vm_compute; reflexivity|].
    rewrite H. vm_compute. reflexivity.
  - split.
    + destruct (Hthree "abc:30:15" "abc" "30" "15") as (_ & H & _);
        [vm_compute; reflexivity|].
      rewrite H; vm_compute; reflexivity.
    + destruct (Hthree "2:xx:yy" "2" "xx" "yy") as (_ & _ & Hm & Hs);
        [vm_compute; reflexivity|].
      rewrite Hs; vm_compute; reflexivity.
Defined.

(** ** Binary64 cross-checks

    The figures of the scenarios above are exact in binary64 as well: the
    same operations on IEEE doubles give the same numbers. *)

Module Binary64.

Import PrimFloat.

Example binary64_on_queue_utilization :
  ((30 + 60) / (60 + 120) * 100 = 50)%float.
Proof. reflexivity. Qed.

Example binary64_discrepancies :
  (4 / 100 * 100 = 4)%float /\ (20 / 100 * 100 = 20)%float /\
  (40 / 100 * 100 = 40)%float.
Proof. repeat split. Qed.

(** The two thresholds are met exactly: 5 in 100 is 5 and 30 in 100 is 30. *)
Example binary64_thresholds :
  (5 / 100 * 100 = 5)%float /\ (30 / 100 * 100 = 30)%float /\
  (1 / 20 * 100 = 5)%float /\ (3 / 10 * 100 = 30)%float.
Proof. repeat split. Qed.

Example binary64_rates :
  (1 / 10 * 100 = 10)%float /\ (10 / 200 * 100 = 5)%float /\
  (10 / 8 * 100 = 125)%float /\ (1 / 1 * 100 = 100)%float.
Proof. repeat split. Qed.

Example binary64_durations :
  (1 * 60 + 0 + 0 / 60 = 60)%float /\ (0 * 60 + 30 + 0 / 60 = 30)%float /\
  (1 * 60 + 30 + 15 / 60 = 90.25)%float /\ (0 * 60 + 30 + 15 / 60 = 30.25)%float.
Proof. repeat split. Qed.

Example binary64_unguarded :
  PrimFloat.is_nan (0 / 0)%float = true /\
  (5 / 0 = infinity)%float /\
  PrimFloat.is_nan ((0 - 0) / 0 * 100)%float = true.
Proof. repeat split. Qed.

(** Where a quotient is not a binary fraction the double is off the
    rational in its last place, 7 in 100 comes out above 7, and totals
    beyond the range of doubles give NaN: the statements about rates are
    made on the computed value, and bounds are stated for totals up to
    2^53. *)
Example binary64_rounding :
  PrimFloat.ltb 7 (7 / 100 * 100)%float = true /\
  PrimFloat.is_nan (infinity / infinity * 100)%float = true.
Proof. repeat split. Qed.

End Binary64.

(** * Further properties of the code *)

(** ** The row filters of the calculator *)

Lemma filterM_pure {A : Type} (p : A -> exc bool) (q : A -> bool) (l : list A) :
  (forall x, p x = Ok (q x)) -> filterM p l = Ok (List.filter q l).
Proof.
  intros Hp. induction l as [|x l IH]; [reflexivity|].
  cbn [filterM List.filter]. rewrite Hp, IH. cbn [bind ret].
  destruct (q x); reflexivity.
Qed.

(** The status filter never throws and is an ordinary filter. *)
Lemma validAgentStatus_filter (agentStatus : list row) :
  validAgentStatus agentStatus
  = Ok (List.filter
          (fun agent =>
             match prop agent "Logged In" with
             | Some s => negb (String.eqb (trim s) "")
             | None => false
             end && notTemplate agent)
          agentStatus).
Proof.
  apply filterM_pure. intros agent. unfold hasLoggedTime.
  destruct (prop agent "Logged In") as [s|]; [|reflexivity].
  destruct s; reflexivity.
Qed.

(** X1.  The status filter keeps exactly the rows whose "Logged In" text is
    present and not blank and whose agent name does not contain
    "Template"; it keeps them in their order and never throws. *)
Theorem status_filter_keeps (agentStatus : list row) :
  exists validStatus,
    validAgentStatus agentStatus = Ok validStatus /\
    len validStatus <= len agentStatus /\
    forall agent,
      In agent validStatus <->
      In agent agentStatus /\
      (exists s, prop agent "Logged In" = Some s /\ trim s <> "") /\
      notTemplate agent = true.
Proof.
  eexists. split; [apply validAgentStatus_filter|].
  split; [apply len_filter_le|].
  intros agent. rewrite filter_In, andb_true_iff.
  split.
  - intros (Hin & Hl & Hn). repeat split; try assumption.
    destruct (prop agent "Logged In") as [s|]; [|discriminate].
    exists s. split; [reflexivity|]. intros E. rewrite E in Hl. discriminate.
  - intros (Hin & (s & Hs & Hne) & Hn). repeat split; try assumption.
    rewrite Hs. apply negb_true_iff. apply String.eqb_neq. exact Hne.
Qed.

(** X2.  The interaction filter looks at "Initial Direction" and "Queue"
    only, and Total Calls and the Abandonment Rate at "Abandoned" besides:
    rewriting every row in a way that leaves these three properties alone
    (an agent column added, changed or removed) changes neither KPI. *)
Theorem kpis_ignore_other_columns (f : row -> row)
  (agentPerformance agentStatus trainingInteractions timeSummary : list row) :
  (forall call,
     prop (f call) "Initial Direction" = prop call "Initial Direction" /\
     prop (f call) "Queue" = prop call "Queue" /\
     prop (f call) "Abandoned" = prop call "Abandoned") ->
  exists r r',
    calculateDetailedMetrics agentPerformance agentStatus trainingInteractions
      timeSummary = Ok r /\
    calculateDetailedMetrics agentPerformance agentStatus
      (List.map f trainingInteractions) timeSummary = Ok r' /\
    Report.totalCalls r' = Report.totalCalls r /\
    Report.abandonmentRate r' = Report.abandonmentRate r.
Proof.
  intros Hf.
  destruct (calculateDetailedMetrics_returns agentPerformance agentStatus
              trainingInteractions timeSummary)
    as (vs & q & h & t & p & _ & _ & Hr).
  destruct (calculateDetailedMetrics_returns agentPerformance agentStatus
              (List.map f trainingInteractions) timeSummary)
    as (vs' & q' & h' & t' & p' & _ & _ & Hr').
  eexists. eexists. split; [exact Hr|]. split; [exact Hr'|].
  cbn [Report.totalCalls Report.abandonmentRate report].
  assert (Hfilter : forall (g : row -> bool) (l : list row),
            (forall call, g (f call) = g call) ->
            List.filter g (List.map f l) = List.map f (List.filter g l)).
  { intros g l Hg. induction l as [|x l IH]; [reflexivity|].
    cbn [List.map List.filter]. rewrite Hg. destruct (g x); cbn [List.map];
      rewrite IH; reflexivity. }
  assert (Hvalid : validInteractions (List.map f trainingInteractions)
                   = List.map f (validInteractions trainingInteractions)).
  { apply Hfilter. intros call. destruct (Hf call) as (-> & -> & _).
    reflexivity. }
  assert (Hinbound : inboundCalls (List.map f trainingInteractions)
                     = List.map f (inboundCalls trainingInteractions)).
  { unfold inboundCalls. rewrite Hvalid. apply Hfilter.
    intros call. destruct (Hf call) as (-> & _). reflexivity. }
  assert (Hlen : forall (g : row -> bool) (l : list row),
            (forall call, g (f call) = g call) ->
            len (List.filter g (List.map f l)) = len (List.filter g l)).
  { intros g l Hg. rewrite (Hfilter g l Hg). unfold len.
    rewrite length_map. reflexivity. }
  assert (Hans : forall call, isAnswered (f call) = isAnswered call).
  { intros call. unfold isAnswered. destruct (Hf call) as (_ & _ & ->).
    reflexivity. }
  assert (Hab : forall call, isAbandoned (f call) = isAbandoned call).
  { intros call. unfold isAbandoned. destruct (Hf call) as (_ & _ & ->).
    reflexivity. }
  split.
  - unfold totalCalls, totalCallsFromInteractions. rewrite Hvalid.
    apply Hlen, Hans.
  - unfold abandonmentRate, abandonedCalls. rewrite Hinbound.
    rewrite (Hlen isAbandoned _ Hab).
    unfold len at 1 3. rewrite length_map. reflexivity.
Qed.

Lemma kpis_ignore_other_columns_witness :
  exists r r',
    calculateDetailedMetrics [] [] Examples.ten_inbound_one_abandoned []
    = Ok r /\
    calculateDetailedMetrics [] []
      (List.map (fun call : row => <["Users - Interacted" := "Alice Martin"]> call)
         Examples.ten_inbound_one_abandoned) [] = Ok r' /\
    Report.totalCalls r' = Report.totalCalls r /\
    Report.abandonmentRate r' = Report.abandonmentRate r.
Proof.
  apply (kpis_ignore_other_columns
           (fun call : row => <["Users - Interacted" := "Alice Martin"]> call)).
  intros call. unfold prop.
  repeat split; apply lookup_insert_ne; discriminate.
Defined.

(** X3.  A row whose agent name contains "Template" is dropped by the
    performance filter and by the status filter, wherever it stands in the
    table: the filtered tables are those of the table without it. *)
Theorem template_rows_are_dropped (template : row) (name : string)
  (before after : list row) :
  prop template "Agent Name" = Some name ->
  includes "Template" name = true ->
  validAgentPerformance (before ++ template :: after)
  = validAgentPerformance (before ++ after) /\
  validAgentStatus (before ++ template :: after)
  = validAgentStatus (before ++ after).
Proof.
  intros Hname Hincl.
  assert (Hnt : notTemplate template = false).
  { unfold notTemplate. rewrite Hname. cbn. rewrite Hincl. reflexivity. }
  split.
  - unfold validAgentPerformance. rewrite !List.filter_app.
    cbn [List.filter]. rewrite Hnt, andb_false_r. reflexivity.
  - rewrite !validAgentStatus_filter, !List.filter_app.
    cbn [List.filter]. rewrite Hnt, andb_false_r. reflexivity.
Qed.

Lemma template_rows_are_dropped_witness :
  validAgentPerformance
    [Examples.agent_answering "100" "7"; Examples.template_agent]
  = validAgentPerformance [Examples.agent_answering "100" "7"] /\
  validAgentStatus
    [Examples.status_row "1:00:00.000" "0:30:00.000"; Examples.template_agent]
  = validAgentStatus [Examples.status_row "1:00:00.000" "0:30:00.000"].
Proof.
  split.
  - apply (proj1 (template_rows_are_dropped Examples.template_agent
                    "Template Agent" [Examples.agent_answering "100" "7"] []
                    eq_refl eq_refl)).
  - apply (proj2 (template_rows_are_dropped Examples.template_agent
                    "Template Agent"
                    [Examples.status_row "1:00:00.000" "0:30:00.000"] []
                    eq_refl eq_refl)).
Defined.

(** ** The counts in the traces *)

(** X4.  The counts that the traces report are consistent: inbound and
    outbound interactions add up to the valid interactions, answered and
    abandoned ones do too, abandoned and answered inbound calls add up to
    the inbound calls, no count is negative, and no filtered table is
    longer than its table. *)
Theorem trace_counts_add_up
  (agentPerformance agentStatus trainingInteractions timeSummary : list row) :
  exists r,
    calculateDetailedMetrics agentPerformance agentStatus trainingInteractions
      timeSummary = Ok r /\
    let reconciliation :=
      Report.values (Report.cd_dataReconciliation (Report.calculationDetails r)) in
    let filtering :=
      Report.values (Report.cd_dataFiltering (Report.calculationDetails r)) in
    let calls :=
      Report.values (Report.cd_totalCalls (Report.calculationDetails r)) in
    let abandonment :=
      Report.values (Report.cd_abandonmentRate (Report.calculationDetails r)) in
    Report.inboundInteractions reconciliation
    + Report.outboundInteractions reconciliation
    = Report.rv_totalInteractions reconciliation /\
    0 <= Report.inboundInteractions reconciliation /\
    0 <= Report.outboundInteractions reconciliation /\
    Report.answeredInteractions calls + Report.abandonedInteractions calls
    = Report.tc_totalInteractions calls /\
    0 <= Report.answeredInteractions calls /\
    0 <= Report.abandonedInteractions calls /\
    Report.abandonedInboundCalls abandonment
    + Report.ab_answeredInboundCalls abandonment
    = Report.totalInboundCalls abandonment /\
    0 <= Report.abandonedInboundCalls abandonment /\
    0 <= Report.ab_answeredInboundCalls abandonment /\
    0 <= Report.validAgentPerformanceRows filtering
      <= Report.totalAgentPerformanceRows filtering /\
    0 <= Report.validAgentStatusRows filtering
      <= Report.totalAgentStatusRows filtering /\
    0 <= Report.fv_validInteractions filtering
      <= Report.fv_totalInteractions filtering /\
    Report.answeredInteractions calls = Report.totalCalls r.
Proof.
  destruct (calculateDetailedMetrics_returns agentPerformance agentStatus
              trainingInteractions timeSummary)
    as (vs & q & h & t & p & Hvs & _ & Hr).
  eexists. split; [exact Hr|].
  cbn [Report.calculationDetails Report.cd_dataReconciliation
       Report.cd_dataFiltering Report.cd_totalCalls Report.cd_abandonmentRate
       Report.totalCalls report].
  cbv zeta.
  cbn [Report.values dataReconciliation dataFiltering totalCallsTrace
       abandonmentRateTrace Report.inboundInteractions
       Report.outboundInteractions Report.rv_totalInteractions
       Report.answeredInteractions Report.abandonedInteractions
       Report.tc_totalInteractions Report.abandonedInboundCalls
       Report.ab_answeredInboundCalls Report.totalInboundCalls
       Report.validAgentPerformanceRows Report.totalAgentPerformanceRows
       Report.validAgentStatusRows Report.totalAgentStatusRows
       Report.fv_validInteractions Report.fv_totalInteractions].
  rewrite validAgentStatus_filter in Hvs. injection Hvs as <-.
  pose proof (len_filter_le
                (fun call => strict_eq (prop call "Initial Direction") "Inbound")
                (validInteractions trainingInteractions)) as H1.
  pose proof (len_filter_le isAnswered
                (validInteractions trainingInteractions)) as H2.
  pose proof (len_filter_le isAbandoned
                (inboundCalls trainingInteractions)) as H3.
  fold (inboundCalls trainingInteractions) in H1.
  fold (totalCallsFromInteractions trainingInteractions) in H2.
  fold (totalCalls trainingInteractions) in H2.
  fold (abandonedCalls trainingInteractions) in H3.
  pose proof (len_nonneg (inboundCalls trainingInteractions)) as N1.
  pose proof (len_nonneg (abandonedCalls trainingInteractions)) as N2.
  pose proof (len_nonneg (validAgentPerformance agentPerformance)) as N3.
  pose proof (len_nonneg (validInteractions trainingInteractions)) as N4.
  assert (N5 : 0 <= totalCalls trainingInteractions) by apply len_nonneg.
  pose proof (len_filter_le
                (fun agent => hasAnswered agent && notTemplate agent)
                agentPerformance) as H4.
  fold (validAgentPerformance agentPerformance) in H4.
  pose proof (len_filter_le
                (fun interaction =>
                   truthy (prop interaction "Initial Direction")
                   && truthy (prop interaction "Queue"))
                trainingInteractions) as H5.
  fold (validInteractions trainingInteractions) in H5.
  match goal with
  | |- context [len (List.filter ?g agentStatus)] =>
      pose proof (len_filter_le g agentStatus) as H6;
      pose proof (len_nonneg (List.filter g agentStatus)) as N6
  end.
  repeat split; lia.
Qed.

(** ** Tables put together *)



(** ** The order of the rows *)






(** ** Empty denominators *)

(** X7.  When the status filter keeps no row, Productive Utilization,
    On-Queue Utilization and Shrinkage are 0; when no inbound interaction is
    answered, Average Speed of Answer and Average Handle Time are 0. *)
Theorem kpis_of_empty_populations
  (agentPerformance agentStatus trainingInteractions timeSummary : list row) :
  exists r,
    calculateDetailedMetrics agentPerformance agentStatus trainingInteractions
      timeSummary = Ok r /\
    (validAgentStatus agentStatus = Ok [] ->
     Report.productiveUtilization r = zero /\
     Report.onQueueUtilization r = zero /\
     Report.shrinkage r = zero) /\
    (answeredInbound trainingInteractions = [] ->
     Report.avgSpeedOfAnswer r = zero /\
     Report.avgHandleTime r = zero).
Proof.
  destruct (calculateDetailedMetrics_returns agentPerformance agentStatus
              trainingInteractions timeSummary)
    as (vs & q & h & t & p & Hvs & Ht & Hr).
  eexists. split; [exact Hr|].
  cbn [Report.productiveUtilization Report.onQueueUtilization Report.shrinkage
       Report.avgSpeedOfAnswer Report.avgHandleTime report].
  split.
  - intros Hnone. rewrite Hnone in Hvs. injection Hvs as <-.
    cbn in Ht. injection Ht as <-.
    repeat split.
  - intros Hnone. unfold averageOver. rewrite Hnone. split; reflexivity.
Qed.

Lemma kpis_of_empty_populations_witness :
  exists r,
    calculateDetailedMetrics [] [Examples.template_agent]
      [Examples.abandoned_inbound; Examples.answered_outbound] [] = Ok r /\
    Report.productiveUtilization r = zero /\
    Report.onQueueUtilization r = zero /\
    Report.shrinkage r = zero /\
    Report.avgSpeedOfAnswer r = zero /\
    Report.avgHandleTime r = zero.
Proof.
  destruct (kpis_of_empty_populations [] [Examples.template_agent]
              [Examples.abandoned_inbound; Examples.answered_outbound] [])
    as (r & Hr & Hstatus & Hcalls).
  exists r. split; [exact Hr|].
  destruct Hstatus as (H1 & H2 & H3); [vm_compute; reflexivity|].
  destruct Hcalls as (H4 & H5); [vm_compute; reflexivity|].
  repeat split; assumption.
Defined.

(** ** Bounds of the Transfer Rate *)

Lemma fold_sum_le {A : Type} (f g : A -> Z) (l : list A) :
  (forall x, In x l -> f x <= g x) ->
  forall a b, a <= b ->
    fold_left (fun sum x => sum + f x) l a
    <= fold_left (fun sum x => sum + g x) l b.
Proof.
  induction l as [|x l IH]; intros Hfg a b Hab; simpl; [exact Hab|].
  apply IH.
  - intros y Hy. apply Hfg. right. exact Hy.
  - assert (f x <= g x) by (apply Hfg; left; reflexivity). lia.
Qed.

(** X8.  When no valid performance row reports a negative number of
    transfers or more transfers than answered calls, and the answered calls
    of the valid rows add up to 2^53 at most (the range in which the code's
    numbers hold every count and every partial sum exactly), the Transfer
    Rate is a finite number in [0, 100]. *)
Theorem transfer_rate_bounds
  (agentPerformance agentStatus trainingInteractions timeSummary : list row) :
  (forall agent, In agent (validAgentPerformance agentPerformance) ->
     0 <= int_or0 (parseInt (prop agent "Transferred"))
       <= int_or0 (parseInt (prop agent "Answered"))) ->
  sumInt "Answered" (validAgentPerformance agentPerformance) <= 2 ^ 53 ->
  exists r (q : Q),
    calculateDetailedMetrics agentPerformance agentStatus trainingInteractions
      timeSummary = Ok r /\
    Report.transferRate r = Fin q /\ (0 <= q)%Q /\ (q <= 100)%Q.
Proof.
  intros Hrows _.
  destruct (calculateDetailedMetrics_returns agentPerformance agentStatus
              trainingInteractions timeSummary)
    as (vs & q & h & t & p & _ & _ & Hr).
  assert (HT0 : 0 <= sumInt "Transferred" (validAgentPerformance agentPerformance)).
  { unfold sumInt. apply fold_sum_ge. intros agent Hin.
    apply (Hrows agent Hin). }
  assert (HTA : sumInt "Transferred" (validAgentPerformance agentPerformance)
                <= sumInt "Answered" (validAgentPerformance agentPerformance)).
  { unfold sumInt. apply fold_sum_le; [|lia].
    intros agent Hin. apply (Hrows agent Hin). }
  assert (Hrate : transferRate agentPerformance
                  = if sumInt "Answered" (validAgentPerformance agentPerformance)
                       >? 0
                    then mul (div (of_Z (sumInt "Transferred"
                                           (validAgentPerformance
                                              agentPerformance)))
                                (of_Z (sumInt "Answered"
                                         (validAgentPerformance
                                            agentPerformance))))
                           (of_Z 100)
                    else zero) by reflexivity.
  destruct (sumInt "Answered" (validAgentPerformance agentPerformance) >? 0)
    eqn:E.
  - apply Z.gtb_lt in E.
    destruct (percent_value
                (sumInt "Transferred" (validAgentPerformance agentPerformance))
                (sumInt "Answered" (validAgentPerformance agentPerformance)) E)
      as (x & Hx & Hv).
    eexists. exists x. split; [exact Hr|].
    cbn [Report.transferRate report]. rewrite Hrate, Hx.
    split; [reflexivity|].
    eapply percent_bounds; [|exact E|exact Hv]. lia.
  - eexists. exists 0%Q. split; [exact Hr|].
    cbn [Report.transferRate report]. rewrite Hrate.
    split; [reflexivity|]. split; discriminate.
Qed.

Lemma transfer_rate_bounds_witness :
  exists r (q : Q),
    calculateDetailedMetrics
      [Examples.agent_answering "200" "10"; Examples.idle_agent] [] [] []
    = Ok r /\
    Report.transferRate r = Fin q /\ (0 <= q)%Q /\ (q <= 100)%Q.
Proof.
  apply transfer_rate_bounds.
  - intros agent Hin. vm_compute in Hin.
    destruct Hin as [<-|[]]. vm_compute. split; discriminate.
  - vm_compute. discriminate.
Defined.

(** ** Reconciliation: the three fields *)

Lemma Qred_zero (q : Q) : (q == 0)%Q -> Qred q = 0%Q.
Proof. intros H. rewrite (Qred_complete q 0 H). reflexivity. Qed.

(** X9.  When the two totals are equal, and also when the performance table
    has no valid row whatever the interaction table holds, the
    reconciliation reports 0.00%: acceptable variance, "Monitor trends". *)
Theorem reconciliation_of_matching_totals
  (agentPerformance agentStatus trainingInteractions timeSummary : list row) :
  agentPerformanceTotal agentPerformance
  = interactionsAnsweredTotal trainingInteractions \/
  validAgentPerformance agentPerformance = [] ->
  exists r,
    calculateDetailedMetrics agentPerformance agentStatus trainingInteractions
      timeSummary = Ok r /\
    Report.result (Report.cd_dataReconciliation (Report.calculationDetails r))
    = Report.RText "✅ 0.00% variance - acceptable" /\
    Report.rv_discrepancyPercent
      (Report.values
         (Report.cd_dataReconciliation (Report.calculationDetails r)))
    = "0.00%" /\
    Report.dataQualityFlag
      (Report.values
         (Report.cd_dataReconciliation (Report.calculationDetails r)))
    = "✅ Acceptable variance" /\
    Report.rv_recommendedAction
      (Report.values
         (Report.cd_dataReconciliation (Report.calculationDetails r)))
    = "Monitor trends".
Proof.
  intros Hcase.
  destruct (calculateDetailedMetrics_returns agentPerformance agentStatus
              trainingInteractions timeSummary)
    as (vs & q & h & t & p & _ & _ & Hr).
  eexists. split; [exact Hr|].
  cbn [Report.calculationDetails Report.cd_dataReconciliation report].
  rewrite reconciliation_result_cases.
  cbn [Report.values dataReconciliation Report.rv_discrepancyPercent
       Report.dataQualityFlag Report.rv_recommendedAction].
  assert (Hpct : discrepancyPercent agentPerformance trainingInteractions
                 = zero).
  { unfold discrepancyPercent, callDiscrepancy.
    destruct (agentPerformanceTotal agentPerformance >? 0) eqn:E;
      [|reflexivity].
    apply Z.gtb_lt in E.
    destruct Hcase as [Heq|Hnone].
    - rewrite <- Heq, Z.sub_diag. change (Z.abs 0) with 0.
      unfold mul, div, of_Z. rewrite (Qeq_bool_inject_Z_pos _ E).
      rewrite (Qred_zero
                 (inject_Z 0
                  / inject_Z (agentPerformanceTotal agentPerformance))%Q).
      + reflexivity.
      + unfold Qdiv. apply Qmult_0_l.
    - unfold agentPerformanceTotal in E. rewrite Hnone in E.
      cbn in E. lia. }
  rewrite Hpct. repeat split.
Qed.

Lemma reconciliation_of_matching_totals_witness :
  (exists r,
     calculateDetailedMetrics [Examples.agent_answering "9" "1"] []
       Examples.ten_inbound_one_abandoned [] = Ok r /\
     Report.result (Report.cd_dataReconciliation (Report.calculationDetails r))
     = Report.RText "✅ 0.00% variance - acceptable") /\
  (exists r,
     calculateDetailedMetrics [Examples.idle_agent] []
       (repeat Examples.answered_inbound 140) [] = Ok r /\
     Report.agentPerformanceCallTotal
       (Report.values
          (Report.cd_dataReconciliation (Report.calculationDetails r))) = 0 /\
     Report.rv_interactionsAnsweredTotal
       (Report.values
          (Report.cd_dataReconciliation (Report.calculationDetails r))) = 140 /\
     Report.result (Report.cd_dataReconciliation (Report.calculationDetails r))
     = Report.RText "✅ 0.00% variance - acceptable").
Proof.
  split.
  - destruct (reconciliation_of_matching_totals
                [Examples.agent_answering "9" "1"] []
                Examples.ten_inbound_one_abandoned [])
      as (r & Hr & Hres & _); [left; vm_compute; reflexivity|].
    exists r. split; [exact Hr|exact Hres].
  - destruct (reconciliation_of_matching_totals [Examples.idle_agent] []
                (repeat Examples.answered_inbound 140) [])
      as (r & Hr & Hres & _); [right; vm_compute; reflexivity|].
    exists r. split; [exact Hr|].
    assert (E : Ok r = calculateDetailedMetrics [Examples.idle_agent] []
                         (repeat Examples.answered_inbound 140) [])
      by (symmetry; exact Hr).
    split; [|split; [|exact Hres]].
    + clear Hres. vm_compute in E. injection E as ->. reflexivity.
    + clear Hres. vm_compute in E. injection E as ->. reflexivity.
Defined.



(** ** The samples in the traces *)

Lemma sample_loop_length {A : Type}
  (body : number * list number -> A -> exc (number * list number))
  (l : list A) :
  (forall total samples x res,
     body (total, samples) x = Ok res ->
     exists v,
       snd res = if len samples <? 10 then (samples ++ [v])%list else samples) ->
  forall (total : number) (samples : list number) (res : number * list number),
    (List.length samples <= 10)%nat ->
    forEachM body l (total, samples) = Ok res ->
    List.length (snd res) = Nat.min 10 (List.length samples + List.length l).
Proof.
  intros Hbody.
  induction l as [|x l IH]; intros total samples res Hlen H.
  - cbn in H. injection H as <-. cbn [snd List.length]. lia.
  - apply forEachM_cons_inv in H. destruct H as ([total' samples'] & Hs & H).
    apply Hbody in Hs. destruct Hs as [v Hv]. cbn [snd] in Hv. subst samples'.
    unfold len in H.
    destruct (Z.of_nat (List.length samples) <? 10) eqn:E.
    + apply Z.ltb_lt in E. apply IH in H.
      * rewrite H, length_app. cbn [List.length]. lia.
      * rewrite length_app. cbn [List.length]. lia.
    + apply Z.ltb_ge in E. apply IH in H; [|exact Hlen].
      rewrite H. cbn [List.length]. lia.
Qed.

Lemma statusLoop_samples (l : list row) :
  forall t0 t,
    (List.length (utilizationSamples t0) <= 5)%nat ->
    List.length (shrinkageSamples t0) = List.length (utilizationSamples t0) ->
    forEachM statusStep l t0 = Ok t ->
    List.map Report.us_agent (utilizationSamples t)
    = (List.map Report.us_agent (utilizationSamples t0)
       ++ firstn (5 - List.length (utilizationSamples t0))
            (List.map (fun agent => prop agent "Agent Name") l))%list /\
    List.map Report.ss_agent (shrinkageSamples t)
    = (List.map Report.ss_agent (shrinkageSamples t0)
       ++ firstn (5 - List.length (utilizationSamples t0))
            (List.map (fun agent => prop agent "Agent Name") l))%list.
Proof.
  induction l as [|agent l IH]; intros t0 t Hlen Hsame H.
  - cbn in H. injection H as <-. rewrite firstn_nil, !app_nil_r.
    split; reflexivity.
  - apply forEachM_cons_inv in H. destruct H as (t1 & H1 & H).
    revert H1. unfold statusStep. repeat step_minutes.
    intros H1. injection H1 as <-.
    unfold len in H.
    destruct (Z.of_nat (List.length (utilizationSamples t0)) <? 5) eqn:E.
    + apply Z.ltb_lt in E. apply IH in H.
      * cbn [utilizationSamples shrinkageSamples] in H.
        destruct H as [Hu Hs]. rewrite Hu, Hs.
        rewrite !map_app, !length_app. cbn [List.map List.length].
        replace (5 - List.length (utilizationSamples t0))%nat
          with (S (5 - (List.length (utilizationSamples t0) + 1)))%nat by lia.
        cbn [firstn Report.us_agent Report.ss_agent].
        rewrite <- !app_assoc. split; reflexivity.
      * cbn [utilizationSamples]. rewrite length_app. cbn. lia.
      * cbn [utilizationSamples shrinkageSamples]. rewrite !length_app.
        cbn. lia.
    + apply Z.ltb_ge in E. apply IH in H; [|exact Hlen|exact Hsame].
      cbn [utilizationSamples shrinkageSamples] in H.
      destruct H as [Hu Hs]. rewrite Hu, Hs.
      replace (5 - List.length (utilizationSamples t0))%nat with 0%nat by lia.
      cbn [firstn]. split; reflexivity.
Qed.

(** X11.  The traces carry samples of bounded size: at most five queue
    times and five handle times, one per answered inbound call while there
    are fewer than five; and the utilization and shrinkage samples describe
    the first five valid status rows, in their order. *)
Theorem trace_samples
  (agentPerformance agentStatus trainingInteractions timeSummary : list row) :
  exists r validStatus,
    calculateDetailedMetrics agentPerformance agentStatus trainingInteractions
      timeSummary = Ok r /\
    validAgentStatus agentStatus = Ok validStatus /\
    List.length
      (Report.sampleQueueTimes
         (Report.values
            (Report.cd_avgSpeedOfAnswer (Report.calculationDetails r))))
    = Nat.min 5 (List.length (answeredInbound trainingInteractions)) /\
    List.length
      (Report.sampleHandleTimes
         (Report.values (Report.cd_avgHandleTime (Report.calculationDetails r))))
    = Nat.min 5 (List.length (answeredInbound trainingInteractions)) /\
    List.map Report.us_agent
      (Report.oq_utilizationSamples
         (Report.values
            (Report.cd_onQueueUtilization (Report.calculationDetails r))))
    = firstn 5 (List.map (fun agent => prop agent "Agent Name") validStatus) /\
    List.map Report.ss_agent
      (Report.agentSamples
         (Report.values (Report.cd_shrinkage (Report.calculationDetails r))))
    = firstn 5 (List.map (fun agent => prop agent "Agent Name") validStatus).
Proof.
  unfold calculateDetailedMetrics.
  destruct (validAgentStatus_total agentStatus) as [validStatus Hs].
  destruct (queueTimeLoop_total trainingInteractions) as [queue Hq].
  destruct (handleTimeLoop_total trainingInteractions) as [handle Hh].
  destruct (statusLoop_total validStatus) as [t Ht].
  destruct (productiveTimeLoop_total trainingInteractions) as [p Hp].
  rewrite Hs, Hq, Hh. cbn [bind]. rewrite Ht, Hp. cbn [bind ret].
  eexists. exists validStatus. split; [reflexivity|]. split; [reflexivity|].
  cbn [Report.calculationDetails Report.cd_avgSpeedOfAnswer
       Report.cd_avgHandleTime Report.cd_onQueueUtilization
       Report.cd_shrinkage report Report.values avgSpeedOfAnswerTrace
       avgHandleTimeTrace onQueueUtilizationTrace shrinkageTrace
       Report.sampleQueueTimes Report.sampleHandleTimes
       Report.oq_utilizationSamples Report.agentSamples].
  split; [|split].
  - rewrite length_firstn. unfold queueTimeLoop in Hq.
    apply sample_loop_length in Hq; [|clear; intros total samples call res|cbn; lia].
    + rewrite Hq. cbn [List.length]. lia.
    + step_minutes. intros H. injection H as <-. eexists. reflexivity.
  - rewrite length_firstn. unfold handleTimeLoop in Hh.
    apply sample_loop_length in Hh; [|clear; intros total samples call res|cbn; lia].
    + rewrite Hh. cbn [List.length]. lia.
    + repeat step_minutes. intros H. injection H as <-. eexists. reflexivity.
  - apply statusLoop_samples in Ht; [|cbn; lia|reflexivity].
    cbn in Ht. exact Ht.
Qed.

(** * The Dashboard and the duration parser *)

(** ** White space around a text *)

Lemma append_cons (c : ascii) (a b : string) :
  String c a ++ b = String c (a ++ b).
Proof. reflexivity. Qed.

Lemma append_nil (b : string) : "" ++ b = b.
Proof. reflexivity. Qed.

Lemma blank_cons (c : ascii) (w : string) :
  trimStart (String c w) = "" -> isWhiteSpace c = true /\ trimStart w = "".
Proof.
  cbn [trimStart]. destruct (isWhiteSpace c); [auto|discriminate].
Qed.

Lemma whitespace_not_digit (c : ascii) :
  isWhiteSpace c = true -> decimal_digit c = None.
Proof.
  destruct c as [[] [] [] [] [] [] [] []]; intros H;
    try reflexivity; discriminate H.
Qed.

Lemma trimStart_app_blank (w x : string) :
  trimStart w = "" -> trimStart (w ++ x) = trimStart x.
Proof.
  induction w as [|c w IH]; intros Hw; [reflexivity|].
  apply blank_cons in Hw. destruct Hw as [Hc Hw].
  rewrite append_cons. cbn [trimStart]. rewrite Hc. apply IH, Hw.
Qed.

Lemma trimStart_decompose (s : string) :
  exists w, trimStart w = "" /\ s = w ++ trimStart s.
Proof.
  induction s as [|c s (w & Hw & IH)].
  - exists "". split; reflexivity.
  - cbn [trimStart]. destruct (isWhiteSpace c) eqn:E.
    + exists (String c w). split.
      * cbn [trimStart]. rewrite E. exact Hw.
      * rewrite append_cons, <- IH. reflexivity.
    + exists "". split; reflexivity.
Qed.

Lemma trimStart_app (s w : string) :
  trimStart w = "" ->
  exists w', trimStart w' = "" /\ trimStart (s ++ w) = trimStart s ++ w'.
Proof.
  intros Hw. induction s as [|c s (w' & Hw' & IH)].
  - exists "". split; [reflexivity|]. rewrite append_nil. exact Hw.
  - rewrite append_cons. cbn [trimStart]. destruct (isWhiteSpace c).
    + exists w'. split; assumption.
    + exists w. split; [exact Hw|reflexivity].
Qed.

Lemma list_ascii_app (a b : string) :
  list_ascii_of_string (a ++ b)
  = (list_ascii_of_string a ++ list_ascii_of_string b)%list.
Proof.
  induction a as [|c a IH]; [reflexivity|].
  rewrite append_cons. cbn [list_ascii_of_string]. rewrite IH. reflexivity.
Qed.

Lemma string_of_list_app (a b : list ascii) :
  string_of_list_ascii (a ++ b)
  = string_of_list_ascii a ++ string_of_list_ascii b.
Proof.
  induction a as [|c a IH]; [reflexivity|].
  cbn [app string_of_list_ascii]. rewrite append_cons, IH. reflexivity.
Qed.

Lemma reverse_app (a b : string) : reverse (a ++ b) = reverse b ++ reverse a.
Proof.
  unfold reverse. rewrite list_ascii_app, rev_app_distr.
  apply string_of_list_app.
Qed.

Lemma reverse_involutive (s : string) : reverse (reverse s) = s.
Proof.
  unfold reverse. rewrite list_ascii_of_string_of_list_ascii, rev_involutive.
  apply string_of_list_ascii_of_string.
Qed.

Lemma blank_app (a b : string) :
  trimStart a = "" -> trimStart b = "" -> trimStart (a ++ b) = "".
Proof. intros Ha Hb. rewrite trimStart_app_blank; assumption. Qed.

Lemma blank_reverse (w : string) : trimStart w = "" -> trimStart (reverse w) = "".
Proof.
  induction w as [|c w IH]; intros Hw; [reflexivity|].
  apply blank_cons in Hw. destruct Hw as [Hc Hw].
  change (String c w) with (String c "" ++ w). rewrite reverse_app.
  apply blank_app; [apply IH, Hw|].
  cbn. rewrite Hc. reflexivity.
Qed.

Lemma trimEnd_decompose (s : string) :
  exists w, trimStart w = "" /\ s = trimEnd s ++ w.
Proof.
  unfold trimEnd.
  destruct (trimStart_decompose (reverse s)) as (w & Hw & E).
  exists (reverse w). split; [apply blank_reverse, Hw|].
  rewrite <- reverse_app, <- E. symmetry. apply reverse_involutive.
Qed.

Lemma trimEnd_app_blank (x w : string) :
  trimStart w = "" -> trimEnd (x ++ w) = trimEnd x.
Proof.
  intros Hw. unfold trimEnd. rewrite reverse_app.
  rewrite trimStart_app_blank; [reflexivity|]. apply blank_reverse, Hw.
Qed.

(** Every text is its trimmed text between two blank texts. *)
Lemma trim_decompose (s : string) :
  exists lead trail,
    trimStart lead = "" /\ trimStart trail = "" /\
    s = lead ++ trim s ++ trail.
Proof.
  destruct (trimStart_decompose s) as (lead & Hlead & E1).
  destruct (trimEnd_decompose (trimStart s)) as (trail & Htrail & E2).
  exists lead, trail. repeat split; try assumption.
  unfold trim. rewrite <- E2. exact E1.
Qed.

Lemma trim_app_blank (lead s trail : string) :
  trimStart lead = "" -> trimStart trail = "" ->
  trim (lead ++ s ++ trail) = trim s.
Proof.
  intros Hlead Htrail. unfold trim.
  rewrite trimStart_app_blank by exact Hlead.
  destruct (trimStart_app s trail Htrail) as (w & Hw & ->).
  apply trimEnd_app_blank, Hw.
Qed.

(** ** Splitting a text with blank ends *)

Lemma whitespace_not_colon (c : ascii) :
  isWhiteSpace c = true -> Ascii.eqb c ":" = false.
Proof.
  intros H. destruct (Ascii.eqb c ":") eqn:E; [|reflexivity].
  apply Ascii.eqb_eq in E. subst c. discriminate H.
Qed.

Lemma split_blank (w : string) : trimStart w = "" -> split ":" w = [w].
Proof.
  induction w as [|c w IH]; intros Hw; [reflexivity|].
  apply blank_cons in Hw. destruct Hw as [Hc Hw].
  cbn [split]. rewrite (whitespace_not_colon c Hc), (IH Hw). reflexivity.
Qed.

Lemma split_app_front (w x : string) :
  trimStart w = "" ->
  split ":" (w ++ x)
  = match split ":" x with
    | p :: ps => (w ++ p) :: ps
    | [] => [w]
    end.
Proof.
  induction w as [|c w IH]; intros Hw.
  - rewrite append_nil. destruct (split ":" x) eqn:E; [|reflexivity].
    destruct x; cbn in E; [discriminate|].
    destruct (Ascii.eqb a ":"); [discriminate|].
    destruct (split ":" x); discriminate.
  - apply blank_cons in Hw. destruct Hw as [Hc Hw].
    rewrite append_cons. cbn [split].
    rewrite (whitespace_not_colon c Hc), (IH Hw).
    destruct (split ":" x); reflexivity.
Qed.

Lemma split_app_back (y w : string) :
  trimStart w = "" ->
  split ":" (y ++ w)
  = (List.removelast (split ":" y) ++ [(List.last (split ":" y) "" ++ w)%string])%list.
Proof.
  intros Hw. induction y as [|c y IH].
  - rewrite append_nil, (split_blank w Hw). reflexivity.
  - rewrite append_cons. cbn [split]. rewrite IH.
    destruct (split ":" y) as [|p ps] eqn:E.
    { destruct y; cbn in E; [discriminate|].
      destruct (Ascii.eqb a ":"); [discriminate|].
      destruct (split ":" y); discriminate. }
    destruct (Ascii.eqb c ":").
    + destruct ps; reflexivity.
    + destruct ps; reflexivity.
Qed.

(** The three parts of a text and of its trimmed text. *)
Lemma split_three_trim (s h m sec : string) :
  split ":" (trim s) = [h; m; sec] ->
  exists lead trail,
    trimStart lead = "" /\ trimStart trail = "" /\
    split ":" s = [lead ++ h; m; sec ++ trail].
Proof.
  intros Hparts.
  destruct (trim_decompose s) as (lead & trail & Hlead & Htrail & E).
  exists lead, trail. repeat split; try assumption.
  rewrite E at 1. rewrite (split_app_front lead _ Hlead).
  rewrite (split_app_back (trim s) trail Htrail), Hparts. reflexivity.
Qed.

Lemma parseInt_text_app_blank (w p : string) :
  trimStart w = "" -> parseInt_text (w ++ p) = parseInt_text p.
Proof.
  intros Hw. unfold parseInt_text. rewrite (trimStart_app_blank w p Hw).
  reflexivity.
Qed.

(** ** [parseFloat] reads a prefix: a blank tail changes nothing *)

Lemma whitespace_differs (c x : ascii) :
  isWhiteSpace c = true -> isWhiteSpace x = false -> Ascii.eqb c x = false.
Proof.
  intros Hc Hx. destruct (Ascii.eqb c x) eqn:E; [|reflexivity].
  apply Ascii.eqb_eq in E. subst c. congruence.
Qed.

Lemma span_digits_blank (w : string) :
  trimStart w = "" -> span_digits decimal_digit w = ([], w).
Proof.
  destruct w as [|c w]; [reflexivity|]. intros Hw.
  apply blank_cons in Hw. destruct Hw as [Hc _].
  cbn [span_digits]. rewrite (whitespace_not_digit c Hc). reflexivity.
Qed.

Lemma span_digits_app_blank (r w : string) :
  trimStart w = "" ->
  span_digits decimal_digit (r ++ w)
  = (fst (span_digits decimal_digit r),
     snd (span_digits decimal_digit r) ++ w).
Proof.
  intros Hw. induction r as [|a r IH].
  - rewrite append_nil, (span_digits_blank w Hw). reflexivity.
  - rewrite append_cons. cbn [span_digits].
    destruct (decimal_digit a).
    + rewrite IH. destruct (span_digits decimal_digit r). reflexivity.
    + reflexivity.
Qed.

Lemma exponent_part_blank (w : string) :
  trimStart w = "" -> exponent_part w = 0.
Proof.
  destruct w as [|c w]; [reflexivity|]. intros Hw.
  apply blank_cons in Hw. destruct Hw as [Hc _].
  cbn [exponent_part].
  rewrite (whitespace_differs c "e" Hc eq_refl),
    (whitespace_differs c "E" Hc eq_refl).
  reflexivity.
Qed.

Lemma exponent_part_app_blank (r w : string) :
  trimStart w = "" -> exponent_part (r ++ w) = exponent_part r.
Proof.
  intros Hw. destruct r as [|a r].
  - rewrite append_nil. apply exponent_part_blank, Hw.
  - rewrite append_cons. cbn [exponent_part].
    destruct (Ascii.eqb a "e" || Ascii.eqb a "E"); [|reflexivity].
    destruct r as [|b r].
    + rewrite append_nil. destruct w as [|c w]; [reflexivity|].
      apply blank_cons in Hw. destruct Hw as [Hc Hw].
      destruct c as [[] [] [] [] [] [] [] []]; try discriminate Hc;
        reflexivity.
    + rewrite append_cons.
      destruct b as [[] [] [] [] [] [] [] []];
        cbv iota beta;
        rewrite <- ?append_cons, !span_digits_app_blank by exact Hw;
        reflexivity.
Qed.

Lemma prefix_app_blank (p r w : string) :
  Forall (fun c => isWhiteSpace c = false) (list_ascii_of_string p) ->
  trimStart w = "" ->
  String.prefix p (r ++ w) = String.prefix p r.
Proof.
  intros Hp Hw. revert p Hp. induction r as [|b r IH]; intros p Hp.
  - rewrite append_nil. destruct p as [|a p]; [destruct w; reflexivity|].
    destruct w as [|c w]; [reflexivity|].
    apply blank_cons in Hw. destruct Hw as [Hc _].
    cbn [String.prefix]. destruct (Ascii.ascii_dec a c) as [->|]; [|reflexivity].
    inversion Hp; subst. congruence.
  - rewrite append_cons. destruct p as [|a p]; [reflexivity|].
    cbn [String.prefix]. destruct (Ascii.ascii_dec a b); [|reflexivity].
    apply IH. inversion Hp; subst. assumption.
Qed.

Lemma parseFloat_tail_app_blank (negative : bool) (r w : string) :
  trimStart w = "" ->
  (if String.prefix "Infinity" (r ++ w) then Infinity negative
   else
     let '(int_digits, s) := span_digits decimal_digit (r ++ w) in
     let '(frac_digits, s) :=
       match s with
       | String "." r => span_digits decimal_digit r
       | _ => ([], s)
       end in
     match int_digits, frac_digits with
     | [], [] => NaN
     | _, _ =>
         let e := exponent_part s in
         let q := decimal_value (int_digits ++ frac_digits)
                    (e - Z.of_nat (List.length frac_digits)) in
         Fin (if negative then Qred (- q) else q)
     end)
  = (if String.prefix "Infinity" r then Infinity negative
     else
       let '(int_digits, s) := span_digits decimal_digit r in
       let '(frac_digits, s) :=
         match s with
         | String "." r => span_digits decimal_digit r
         | _ => ([], s)
         end in
       match int_digits, frac_digits with
       | [], [] => NaN
       | _, _ =>
           let e := exponent_part s in
           let q := decimal_value (int_digits ++ frac_digits)
                      (e - Z.of_nat (List.length frac_digits)) in
           Fin (if negative then Qred (- q) else q)
       end).
Proof.
  intros Hw.
  rewrite prefix_app_blank; [|repeat constructor|exact Hw].
  destruct (String.prefix "Infinity" r); [reflexivity|].
  rewrite (span_digits_app_blank r w Hw).
  destruct (span_digits decimal_digit r) as [ints rest]. cbn [fst snd].
  destruct rest as [|b rest].
  - rewrite append_nil. destruct w as [|c w]; [reflexivity|].
    apply blank_cons in Hw. destruct Hw as [Hc Hw].
    destruct c as [[] [] [] [] [] [] [] []]; try discriminate Hc;
      reflexivity.
  - rewrite append_cons.
    destruct b as [[] [] [] [] [] [] [] []];
      cbv iota beta;
      rewrite <- ?append_cons, ?span_digits_app_blank by exact Hw;
      try (destruct (span_digits decimal_digit rest) as [fracs rest'];
           cbn [fst snd]);
      rewrite ?exponent_part_app_blank by exact Hw;
      reflexivity.
Qed.

Lemma parseFloat_text_app_blank (y w : string) :
  trimStart w = "" -> parseFloat_text (y ++ w) = parseFloat_text y.
Proof.
  intros Hw. unfold parseFloat_text.
  destruct (trimStart_app y w Hw) as (w' & Hw' & ->).
  destruct (trimStart y) as [|a z].
  - rewrite append_nil. destruct w' as [|c w']; [reflexivity|].
    apply blank_cons in Hw'. destruct Hw' as [Hc Hw'].
    destruct c as [[] [] [] [] [] [] [] []]; try discriminate Hc;
      reflexivity.
  - rewrite append_cons.
    destruct a as [[] [] [] [] [] [] [] []]; cbv iota beta;
      first [ apply (parseFloat_tail_app_blank true z w' Hw')
            | apply (parseFloat_tail_app_blank false z w' Hw')
            | apply (parseFloat_tail_app_blank false (String _ z) w' Hw') ].
Qed.

(** ** The two duration parsers *)

(** The calculator's parser reads its argument through [trim] only. *)
Lemma parseTimeToMinutes_via_trim (s : string) :
  parseTimeToMinutes (Some s)
  = if String.eqb (trim s) "" then Ok zero
    else if len (split ":" (trim s)) =? 3 then
      Ok (add (of_Z (int_or0 (parseInt (split ":" (trim s) !! 0%nat)) * 60
                     + int_or0 (parseInt (split ":" (trim s) !! 1%nat))))
            (div (num_or0 (parseFloat (split ":" (trim s) !! 2%nat)))
               (of_Z 60)))
    else Ok zero.
Proof.
  unfold parseTimeToMinutes. cbn [truthy method_trim negb bind ret].
  destruct s as [|c s]; [reflexivity|].
  cbn [String.eqb negb bind ret].
  destruct (String.eqb (trim (String c s)) ""); reflexivity.
Qed.

(** X12.  [parseTimeToMinutes] of the calculator ignores white space
    before and after the text: blanks around a duration do not change the
    minutes it yields. *)
Theorem duration_ignores_surrounding_blanks (lead s trail : string) :
  trimStart lead = "" -> trimStart trail = "" ->
  parseTimeToMinutes (Some (lead ++ s ++ trail)) = parseTimeToMinutes (Some s).
Proof.
  intros Hlead Htrail.
  rewrite !parseTimeToMinutes_via_trim, (trim_app_blank lead s trail Hlead Htrail).
  reflexivity.
Qed.

Lemma duration_ignores_surrounding_blanks_witness :
  trimStart " " = "" /\ trimStart "  " = "" /\
  parseTimeToMinutes (Some (" " ++ "0:01:30.000" ++ "  "))
  = parseTimeToMinutes (Some "0:01:30.000").
Proof.
  split; [reflexivity|]. split; [reflexivity|].
  apply (duration_ignores_surrounding_blanks " " "0:01:30.000" "  ");
    reflexivity.
Defined.

Lemma split_nonempty (sep : ascii) (s : string) : split sep s <> [].
Proof.
  destruct s as [|c s]; cbn [split]; [discriminate|].
  destruct (Ascii.eqb c sep); [discriminate|].
  destruct (split sep s); discriminate.
Qed.

Lemma dashboard_parseTimeToMinutes (v : value) :
  Dashboard.parseTimeToMinutes v = parseTimeToMinutes v.
Proof.
  destruct v as [s|]; [|reflexivity].
  destruct (String.eqb s "0:00:00.000") eqn:Esent.
  { apply String.eqb_eq in Esent. subst s. vm_compute. reflexivity. }
  rewrite parseTimeToMinutes_via_trim.
  unfold Dashboard.parseTimeToMinutes.
  cbn [truthy strict_eq method_split bind ret]. rewrite Esent.
  destruct s as [|c s]; [reflexivity|].
  cbn [String.eqb negb orb bind ret].
  set (text := String c s).
  assert (Hlen : len (split ":" text) = len (split ":" (trim text))).
  { unfold len. rewrite split_trim_length. reflexivity. }
  rewrite Hlen.
  destruct (String.eqb (trim text) "") eqn:Eblank.
  { apply String.eqb_eq in Eblank. rewrite Eblank. reflexivity. }
  destruct (len (split ":" (trim text)) =? 3) eqn:E3; [|reflexivity].
  destruct (split ":" (trim text)) as [|h [|m [|sec [|extra rest]]]] eqn:Eparts;
    try discriminate E3.
  2:{ apply Z.eqb_eq in E3. unfold len in E3. cbn in E3. lia. }
  destruct (split_three_trim text h m sec Eparts)
    as (lead & trail & Hlead & Htrail & ->).
  cbn [lookup list_lookup].
  unfold parseInt, parseFloat. cbn [ToString].
  rewrite (parseInt_text_app_blank lead h Hlead),
    (parseFloat_text_app_blank sec trail Htrail).
  reflexivity.
Qed.

(** X13.  The Dashboard's inline [parseTimeToMinutes] and the calculator's
    return the same minutes on every cell, missing cells included: the
    [trim] and the empty-text test that only the calculator has make no
    difference, and neither throws. *)
Theorem dashboard_parser_agrees (v : value) :
  Dashboard.parseTimeToMinutes v = parseTimeToMinutes v /\
  exists minutes, Dashboard.parseTimeToMinutes v = Ok minutes.
Proof.
  split; [apply dashboard_parseTimeToMinutes|].
  rewrite dashboard_parseTimeToMinutes. apply parseTimeToMinutes_total.
Qed.

(** ** The Dashboard's filters and KPIs against the calculator's *)

Lemma filter_filter_and {A : Type} (f g : A -> bool) (l : list A) :
  List.filter f (List.filter g l) = List.filter (fun x => g x && f x) l.
Proof.
  induction l as [|x l IH]; [reflexivity|].
  cbn [List.filter]. destruct (g x); cbn [List.filter andb]; rewrite IH;
    reflexivity.
Qed.

Lemma validInteractions_refines (trainingInteractions : list row) :
  validInteractions trainingInteractions
  = List.filter (fun interaction => truthy (prop interaction "Queue"))
      (Dashboard.validInteractions trainingInteractions).
Proof.
  unfold validInteractions, Dashboard.validInteractions.
  rewrite filter_filter_and. reflexivity.
Qed.

Lemma validAgentPerformance_refines (agentPerformance : list row) :
  validAgentPerformance agentPerformance
  = List.filter
      (fun agent =>
         int_gt0 (parseInt (prop agent "Answered")) && notTemplate agent)
      (Dashboard.validAgentPerformance agentPerformance).
Proof.
  unfold validAgentPerformance, Dashboard.validAgentPerformance, hasAnswered.
  rewrite filter_filter_and. apply List.filter_ext. intros agent.
  rewrite andb_assoc. reflexivity.
Qed.

(** X14.  The calculator's filters refine the Dashboard's: its valid
    interactions are the Dashboard's that have a Queue, its valid
    performance rows are the Dashboard's with a positive Answered count and
    no Template name, so every row the calculator keeps the Dashboard keeps
    too. *)
Theorem calculator_filters_refine_dashboard
  (agentPerformance trainingInteractions : list row) :
  validInteractions trainingInteractions
  = List.filter (fun interaction => truthy (prop interaction "Queue"))
      (Dashboard.validInteractions trainingInteractions) /\
  validAgentPerformance agentPerformance
  = List.filter
      (fun agent =>
         int_gt0 (parseInt (prop agent "Answered")) && notTemplate agent)
      (Dashboard.validAgentPerformance agentPerformance) /\
  incl (validInteractions trainingInteractions)
    (Dashboard.validInteractions trainingInteractions) /\
  incl (validAgentPerformance agentPerformance)
    (Dashboard.validAgentPerformance agentPerformance).
Proof.
  split; [apply validInteractions_refines|].
  split; [apply validAgentPerformance_refines|]. split.
  - rewrite validInteractions_refines. apply incl_filter.
  - rewrite validAgentPerformance_refines. apply incl_filter.
Qed.

Lemma dashboard_minutesOf (r : row) (name : string) :
  Dashboard.minutesOf r name = minutesOf r name.
Proof. apply dashboard_parseTimeToMinutes. Qed.

Lemma queue_loop_agrees (l : list row) :
  forall total samples res,
    forEachM
      (fun acc call =>
         let '(totalQueueTime, queueTimeSamples) := acc in
         let* queueTime := minutesOf call "Total Queue" in
         ret (add totalQueueTime queueTime,
              if len queueTimeSamples <? 10
              then (queueTimeSamples ++ [queueTime])%list
              else queueTimeSamples))
      l (total, samples) = Ok res ->
    forEachM
      (fun total call =>
         let* queueTime := Dashboard.minutesOf call "Total Queue" in
         ret (add total queueTime))
      l total = Ok (fst res).
Proof.
  induction l as [|call l IH]; intros total samples res H.
  - cbn in H. injection H as <-. reflexivity.
  - apply forEachM_cons_inv in H. destruct H as ([total' samples'] & Hs & H).
    cbn [forEachM]. rewrite dashboard_minutesOf.
    destruct (minutesOf call "Total Queue") as [v|e]; cbn in Hs;
      [|discriminate].
    injection Hs as <- <-. cbn [bind ret]. eapply IH, H.
Qed.

(** X15.  When every interaction row whose Initial Direction is 'Inbound'
    has a non-empty Queue, the Dashboard's Average Speed of Answer is the
    calculator's [avgSpeedOfAnswer]. *)
Theorem dashboard_speed_of_answer_agrees
  (agentPerformance agentStatus trainingInteractions timeSummary : list row) :
  (forall call, In call trainingInteractions ->
     strict_eq (prop call "Initial Direction") "Inbound" = true ->
     truthy (prop call "Queue") = true) ->
  exists r,
    calculateDetailedMetrics agentPerformance agentStatus trainingInteractions
      timeSummary = Ok r /\
    Dashboard.avgSpeedOfAnswer trainingInteractions
    = Ok (Report.avgSpeedOfAnswer r).
Proof.
  intros Hq.
  unfold calculateDetailedMetrics.
  destruct (validAgentStatus_total agentStatus) as [validStatus Hs].
  destruct (queueTimeLoop_total trainingInteractions) as [queue Hqueue].
  destruct (handleTimeLoop_total trainingInteractions) as [handle Hh].
  destruct (statusLoop_total validStatus) as [t Ht].
  destruct (productiveTimeLoop_total trainingInteractions) as [p Hp].
  rewrite Hs, Hqueue, Hh. cbn [bind]. rewrite Ht, Hp. cbn [bind ret].
  eexists. split; [reflexivity|].
  cbn [Report.avgSpeedOfAnswer report].
  unfold Dashboard.avgSpeedOfAnswer, Dashboard.totalQueueTime,
    Dashboard.answeredInbound.
  rewrite (inboundCalls_agree trainingInteractions Hq).
  unfold queueTimeLoop in Hqueue. apply queue_loop_agrees in Hqueue.
  unfold answeredInbound, isAnswered in Hqueue.
  rewrite Hqueue. reflexivity.
Qed.

Lemma dashboard_speed_of_answer_agrees_witness :
  exists r,
    calculateDetailedMetrics [] [] Examples.ten_inbound_one_abandoned [] = Ok r /\
    Dashboard.avgSpeedOfAnswer Examples.ten_inbound_one_abandoned
    = Ok (Report.avgSpeedOfAnswer r) /\
    Report.avgSpeedOfAnswer r = Fin (3 # 2).
Proof.
  destruct (dashboard_speed_of_answer_agrees [] []
              Examples.ten_inbound_one_abandoned [])
    as (r & Hr & Heq).
  - intros call Hin _.
    repeat (destruct Hin as [<-|Hin]; [vm_compute; reflexivity|]).
    destruct Hin.
  - exists r. split; [exact Hr|]. split; [exact Heq|].
    assert (Hvalue : Dashboard.avgSpeedOfAnswer
                       Examples.ten_inbound_one_abandoned
                     = Ok (Fin (3 # 2)))
      by (vm_compute; reflexivity).
    rewrite Hvalue in Heq. injection Heq as <-. reflexivity.
Defined.

(** X16.  When every performance row the Dashboard keeps has a positive
    Answered count and no Template name, the Dashboard's Transfer Rate is
    the calculator's, the Dashboard's Total Calls is the performance-table
    total of the reconciliation, and the reconciliation's call discrepancy
    is the distance between the Total Calls of the two. *)
Theorem dashboard_totals_agree
  (agentPerformance agentStatus trainingInteractions timeSummary : list row) :
  (forall agent, In agent (Dashboard.validAgentPerformance agentPerformance) ->
     int_gt0 (parseInt (prop agent "Answered")) = true /\
     notTemplate agent = true) ->
  exists r,
    calculateDetailedMetrics agentPerformance agentStatus trainingInteractions
      timeSummary = Ok r /\
    Dashboard.transferRate agentPerformance = Report.transferRate r /\
    Dashboard.totalCalls agentPerformance
    = Report.agentPerformanceCallTotal
        (Report.values
           (Report.cd_dataReconciliation (Report.calculationDetails r))) /\
    Report.rv_callDiscrepancy
      (Report.values
         (Report.cd_dataReconciliation (Report.calculationDetails r)))
    = Z.abs (Dashboard.totalCalls agentPerformance - Report.totalCalls r).
Proof.
  intros Hrows.
  destruct (calculateDetailedMetrics_returns agentPerformance agentStatus
              trainingInteractions timeSummary)
    as (vs & q & h & t & p & _ & _ & Hr).
  eexists. split; [exact Hr|].
  cbn [Report.transferRate Report.totalCalls Report.calculationDetails
       Report.cd_dataReconciliation report Report.values dataReconciliation
       Report.agentPerformanceCallTotal Report.rv_callDiscrepancy].
  assert (Hvalid : validAgentPerformance agentPerformance
                   = Dashboard.validAgentPerformance agentPerformance).
  { rewrite validAgentPerformance_refines.
    apply forallb_filter_id. apply forallb_forall. intros agent Hin.
    destruct (Hrows agent Hin) as [-> ->]. reflexivity. }
  assert (Htotal : Dashboard.totalCalls agentPerformance
                   = agentPerformanceTotal agentPerformance).
  { unfold Dashboard.totalCalls, agentPerformanceTotal, sumInt.
    rewrite Hvalid. reflexivity. }
  split; [|split].
  - unfold Dashboard.transferRate, transferRate, agentPerformanceTransferRate.
    rewrite Htotal. unfold Dashboard.totalTransferred, totalTransferred.
    rewrite Hvalid. reflexivity.
  - exact Htotal.
  - unfold callDiscrepancy. rewrite Htotal. reflexivity.
Qed.

Lemma dashboard_totals_agree_witness :
  exists r,
    calculateDetailedMetrics [Examples.agent_answering "200" "10"] []
      (repeat Examples.answered_inbound 8) [] = Ok r /\
    Dashboard.transferRate [Examples.agent_answering "200" "10"]
    = Report.transferRate r /\
    Dashboard.totalCalls [Examples.agent_answering "200" "10"] = 200 /\
    Report.rv_callDiscrepancy
      (Report.values
         (Report.cd_dataReconciliation (Report.calculationDetails r)))
    = 192.
Proof.
  destruct (dashboard_totals_agree [Examples.agent_answering "200" "10"] []
              (repeat Examples.answered_inbound 8) [])
    as (r & Hr & Hrate & Hcalls & Hdiff).
  - intros agent Hin.
    destruct Hin as [<-|[]]. split; vm_compute; reflexivity.
  - exists r. split; [exact Hr|]. split; [exact Hrate|].
    split; [vm_compute; reflexivity|].
    rewrite Hdiff.
    assert (Hcount : Report.totalCalls r = 8).
    { vm_compute in Hr. injection Hr as <-. reflexivity. }
    rewrite Hcount. vm_compute. reflexivity.
Defined.

(** ** The queue statistics of the Dashboard *)

Section QueueMap.

Context {V : Type}.

Lemma map_get_set_eq (key : string) (v : V) (m : list (string * V)) :
  map_get key (map_set key v m) = Some v.
Proof.
  unfold map_get. induction m as [|[k w] m IH]; cbn [map_set List.find fst].
  - rewrite String.eqb_refl. reflexivity.
  - destruct (String.eqb k key) eqn:E; cbn [List.find fst snd]; rewrite E;
      [reflexivity|exact IH].
Qed.

Lemma map_set_set (key : string) (v v' : V) (m : list (string * V)) :
  map_set key v' (map_set key v m) = map_set key v' m.
Proof.
  induction m as [|[k w] m IH]; cbn [map_set].
  - rewrite String.eqb_refl. reflexivity.
  - destruct (String.eqb k key) eqn:E; cbn [map_set]; rewrite E;
      [reflexivity|]. rewrite IH. reflexivity.
Qed.

Lemma map_get_In (key : string) (v : V) (m : list (string * V)) :
  map_get key m = Some v -> In (key, v) m.
Proof.
  unfold map_get. induction m as [|[k w] m IH]; cbn [List.find fst];
    [discriminate|].
  destruct (String.eqb k key) eqn:E.
  - apply String.eqb_eq in E. subst k. cbn [snd]. intros H.
    injection H as <-. left. reflexivity.
  - intros H. right. apply IH, H.
Qed.

Lemma map_get_None (key : string) (m : list (string * V)) :
  map_get key m = None -> ~ In key (List.map fst m).
Proof.
  unfold map_get. induction m as [|[k w] m IH]; cbn [List.find fst List.map];
    [intros _ []|].
  destruct (String.eqb k key) eqn:E; [discriminate|].
  intros H [Hk|Hin].
  - subst k. rewrite String.eqb_refl in E. discriminate.
  - exact (IH H Hin).
Qed.

(** What [set] does to the entries: a present key keeps its place. *)
Lemma map_set_entries (key : string) (v : V) (m : list (string * V)) :
  match map_get key m with
  | Some w =>
      exists before after,
        m = (before ++ (key, w) :: after)%list /\
        map_set key v m = (before ++ (key, v) :: after)%list
  | None => map_set key v m = (m ++ [(key, v)])%list
  end.
Proof.
  unfold map_get. induction m as [|[k w] m IH]; cbn [List.find fst map_set];
    [reflexivity|].
  destruct (String.eqb k key) eqn:E.
  - apply String.eqb_eq in E. subst k. cbn [snd].
    exists [], m. split; reflexivity.
  - destruct (List.find (fun entry => String.eqb (fst entry) key) m)
      as [entry|].
    + destruct IH as (before & after & -> & ->).
      exists ((k, w) :: before), after. split; reflexivity.
    + rewrite IH. reflexivity.
Qed.

End QueueMap.

(** One call: the entry of its queue, or a fresh one, with one call more. *)
Lemma countCall_step (m : list (string * Dashboard.QueueStat)) (call : row) :
  Dashboard.countCall m call
  = Ok (map_set (or_text (prop call "Queue") "Unknown")
          (let stat :=
             match map_get (or_text (prop call "Queue") "Unknown") m with
             | Some stat => stat
             | None =>
                 {| Dashboard.stat_calls := 0; Dashboard.stat_abandoned := 0 |}
             end in
           {| Dashboard.stat_calls := Dashboard.stat_calls stat + 1;
              Dashboard.stat_abandoned :=
                if strict_eq (prop call "Abandoned") "YES"
                then Dashboard.stat_abandoned stat + 1
                else Dashboard.stat_abandoned stat |})
          m).
Proof.
  unfold Dashboard.countCall, map_has.
  destruct (map_get (or_text (prop call "Queue") "Unknown") m) as [stat|] eqn:E;
    cbn [negb].
  - rewrite E. reflexivity.
  - rewrite map_get_set_eq, map_set_set. reflexivity.
Qed.

Lemma map_get_set_ne {V : Type} (key k : string) (v : V)
  (m : list (string * V)) :
  k <> key -> map_get k (map_set key v m) = map_get k m.
Proof.
  intros Hne. unfold map_get.
  induction m as [|[k' w] m IH]; cbn [map_set List.find fst].
  - destruct (String.eqb key k) eqn:E; [|reflexivity].
    apply String.eqb_eq in E. congruence.
  - destruct (String.eqb k' key) eqn:E; cbn [List.find fst].
    + apply String.eqb_eq in E. subst k'.
      destruct (String.eqb key k) eqn:E'; [|reflexivity].
      apply String.eqb_eq in E'. congruence.
    + destruct (String.eqb k' k); [reflexivity|exact IH].
Qed.

Lemma map_set_keys {V : Type} (key : string) (v : V) (m : list (string * V)) :
  List.NoDup (List.map fst m) -> List.NoDup (List.map fst (map_set key v m)).
Proof.
  intros Hnd. generalize (map_set_entries key v m).
  destruct (map_get key m) as [w|] eqn:E; intros H.
  - destruct H as (before & after & Hm & ->).
    rewrite Hm in Hnd. rewrite List.map_app in *. exact Hnd.
  - cbv beta iota in H. rewrite H, List.map_app. cbn [List.map fst].
    apply List.NoDup_app; [exact Hnd|constructor; [intros []|constructor]|].
    intros k Hk [<-|[]]. exact (map_get_None key m E Hk).
Qed.

Lemma map_get_of_In {V : Type} (key : string) (v : V) (m : list (string * V)) :
  List.NoDup (List.map fst m) -> In (key, v) m -> map_get key m = Some v.
Proof.
  unfold map_get. induction m as [|[k w] m IH]; intros Hnd Hin; [destruct Hin|].
  cbn [List.map fst] in Hnd. apply List.NoDup_cons_iff in Hnd.
  destruct Hnd as [Hk Hnd].
  cbn [List.find fst].
  destruct Hin as [Heq|Hin].
  - injection Heq as -> ->. rewrite String.eqb_refl. reflexivity.
  - destruct (String.eqb k key) eqn:E; [|apply IH; assumption].
    apply String.eqb_eq in E. subst k. exfalso. apply Hk.
    apply (in_map fst) in Hin. exact Hin.
Qed.

(** The state of the statistics after the calls [done]. *)
Lemma queueStats_loop (l : list row) :
  forall (done : list row) (m : list (string * Dashboard.QueueStat)),
    List.NoDup (List.map fst m) ->
    (forall k,
       map_get k m
       = if len (List.filter
                   (fun call =>
                      String.eqb (or_text (prop call "Queue") "Unknown") k)
                   done) =? 0
         then None
         else Some
                {| Dashboard.stat_calls :=
                     len (List.filter
                            (fun call =>
                               String.eqb (or_text (prop call "Queue") "Unknown")
                                 k)
                            done);
                   Dashboard.stat_abandoned :=
                     len (List.filter
                            (fun call =>
                               String.eqb (or_text (prop call "Queue") "Unknown")
                                 k
                               && strict_eq (prop call "Abandoned") "YES")
                            done) |}) ->
    exists m',
      forEachM Dashboard.countCall l m = Ok m' /\
      List.NoDup (List.map fst m') /\
      forall k,
        map_get k m'
        = if len (List.filter
                    (fun call =>
                       String.eqb (or_text (prop call "Queue") "Unknown") k)
                    (done ++ l)) =? 0
          then None
          else Some
                 {| Dashboard.stat_calls :=
                      len (List.filter
                             (fun call =>
                                String.eqb
                                  (or_text (prop call "Queue") "Unknown") k)
                             (done ++ l));
                    Dashboard.stat_abandoned :=
                      len (List.filter
                             (fun call =>
                                String.eqb
                                  (or_text (prop call "Queue") "Unknown") k
                                && strict_eq (prop call "Abandoned") "YES")
                             (done ++ l)) |}.
Proof.
  induction l as [|call l IH]; intros done m Hnd Hspec.
  - exists m. rewrite app_nil_r. repeat split; assumption.
  - cbn [forEachM]. rewrite countCall_step. cbn [bind].
    replace (done ++ call :: l)%list with ((done ++ [call]) ++ l)%list
      by (rewrite <- app_assoc; reflexivity).
    apply IH; [apply map_set_keys, Hnd|].
    intros k. rewrite !List.filter_app. unfold len. rewrite !length_app.
    cbn [List.filter].
    destruct (String.eqb (or_text (prop call "Queue") "Unknown") k) eqn:E.
    + apply String.eqb_eq in E. subst k. rewrite map_get_set_eq, Hspec.
      cbn [andb List.length]. unfold len.
      set (n := List.length (List.filter _ done)).
      set (a := List.length (List.filter _ done)).
      replace (Z.of_nat (n + 1) =? 0) with false
        by (symmetry; apply Z.eqb_neq; lia).
      destruct (Z.of_nat n =? 0) eqn:E0; cbv zeta.
      * apply Z.eqb_eq in E0.
        cbn [Dashboard.stat_calls Dashboard.stat_abandoned].
        assert (Ha : a = 0%nat).
        { subst a n. assert (Hn : List.length
            (List.filter
               (fun call0 : row =>
                  String.eqb (or_text (prop call0 "Queue") "Unknown")
                    (or_text (prop call "Queue") "Unknown")) done) = 0%nat)
            by lia.
          apply length_zero_iff_nil in Hn.
          apply length_zero_iff_nil.
          clear -Hn. induction done as [|x done IHd]; [reflexivity|].
          cbn [List.filter] in *.
          destruct (String.eqb (or_text (prop x "Queue") "Unknown")
                      (or_text (prop call "Queue") "Unknown"));
            [discriminate|]. cbn [andb]. apply IHd, Hn. }
        rewrite Ha. f_equal. f_equal.
        -- lia.
        -- destruct (strict_eq (prop call "Abandoned") "YES"); cbn; lia.
      * cbn [Dashboard.stat_calls Dashboard.stat_abandoned].
        f_equal. f_equal.
        -- lia.
        -- destruct (strict_eq (prop call "Abandoned") "YES"); cbn; lia.
    + rewrite map_get_set_ne, Hspec.
      * cbn [andb List.length]. rewrite !Nat.add_0_r. reflexivity.
      * intros ->. rewrite String.eqb_refl in E. discriminate.
Qed.

(** X17.  The queue statistics of the Dashboard are built without an
    exception, hold each queue name once, and give for a name the number of
    valid interactions with that Queue ('Unknown' for an empty or missing
    one) and how many of them have Abandoned 'YES'; a name without
    interactions has no entry. *)
Theorem queue_statistics_count (trainingInteractions : list row) :
  exists stats,
    Dashboard.queueStats trainingInteractions = Ok stats /\
    List.NoDup (List.map fst stats) /\
    forall queue,
      map_get queue stats
      = if len (List.filter
                  (fun call =>
                     String.eqb (or_text (prop call "Queue") "Unknown") queue)
                  (Dashboard.validInteractions trainingInteractions)) =? 0
        then None
        else Some
               {| Dashboard.stat_calls :=
                    len (List.filter
                           (fun call =>
                              String.eqb (or_text (prop call "Queue") "Unknown")
                                queue)
                           (Dashboard.validInteractions trainingInteractions));
                  Dashboard.stat_abandoned :=
                    len (List.filter
                           (fun call =>
                              String.eqb (or_text (prop call "Queue") "Unknown")
                                queue
                              && strict_eq (prop call "Abandoned") "YES")
                           (Dashboard.validInteractions trainingInteractions))
               |}.
Proof.
  unfold Dashboard.queueStats.
  apply (queueStats_loop (Dashboard.validInteractions trainingInteractions)
           [] []).
  - constructor.
  - intros k. reflexivity.
Qed.

(** ** Sorting *)

Section Sorting.

Context {A : Type} (compare : A -> A -> number).

Lemma sort_insert_Permutation (x : A) (l : list A) :
  Permutation (sort_insert compare x l) (x :: l).
Proof.
  induction l as [|y l IH]; [reflexivity|].
  cbn [sort_insert]. destruct (gt (compare x y) zero); [|reflexivity].
  eapply perm_trans; [apply perm_skip, IH|apply perm_swap].
Qed.

Lemma sort_Permutation (l : list A) : Permutation (sort compare l) l.
Proof.
  induction l as [|x l IH]; [reflexivity|].
  cbn [sort fold_right]. eapply perm_trans; [apply sort_insert_Permutation|].
  apply perm_skip, IH.
Qed.

Variables (P : A -> Prop) (R : A -> A -> Prop).

Hypothesis compare_after :
  forall x y, P x -> P y -> gt (compare x y) zero = true -> R y x.

Hypothesis compare_before :
  forall x y, P x -> P y -> gt (compare x y) zero = false -> R x y.

Lemma sort_insert_Sorted (x : A) (l : list A) :
  P x -> Forall P l -> Sorted.Sorted R l ->
  Sorted.Sorted R (sort_insert compare x l).
Proof.
  intros Hx HP Hs. induction l as [|y l IH].
  - repeat constructor.
  - apply Forall_cons_1 in HP. destruct HP as [Hy HP].
    apply Sorted.Sorted_inv in Hs. destruct Hs as [Hs Hhd].
    cbn [sort_insert]. destruct (gt (compare x y) zero) eqn:E.
    + constructor; [apply IH; assumption|].
      destruct l as [|z l]; cbn [sort_insert].
      * constructor. apply compare_after; assumption.
      * destruct (gt (compare x z) zero).
        -- constructor. inversion Hhd; assumption.
        -- constructor. apply compare_after; assumption.
    + constructor; [constructor; assumption|].
      constructor. apply compare_before; assumption.
Qed.

Lemma sort_Sorted (l : list A) :
  Forall P l -> Sorted.Sorted R (sort compare l).
Proof.
  induction l as [|x l IH]; intros HP; [constructor|].
  apply Forall_cons_1 in HP. destruct HP as [Hx HP].
  cbn [sort fold_right]. apply sort_insert_Sorted; [exact Hx| |apply IH, HP].
  apply Forall_forall. intros y Hy. rewrite Forall_forall in HP. apply HP.
  apply list_elem_of_In.
  apply (Permutation_in _ (sort_Permutation l)).
  apply list_elem_of_In, Hy.
Qed.

Lemma firstn_Sorted (n : nat) (l : list A) :
  Sorted.Sorted R l -> Sorted.Sorted R (firstn n l).
Proof.
  revert l. induction n as [|n IH]; intros l Hs; [constructor|].
  destruct l as [|x l]; [constructor|].
  apply Sorted.Sorted_inv in Hs. destruct Hs as [Hs Hhd].
  cbn [firstn]. constructor; [apply IH, Hs|].
  destruct n; [constructor|].
  destruct l as [|y l]; [constructor|].
  cbn [firstn]. constructor. inversion Hhd; assumption.
Qed.

End Sorting.

Lemma sort_Forall {A : Type} (compare : A -> A -> number) (P : A -> Prop)
  (l : list A) :
  Forall P l -> Forall P (sort compare l).
Proof.
  intros HP. apply Forall_forall. intros y Hy. rewrite Forall_forall in HP.
  apply HP. apply list_elem_of_In.
  apply (Permutation_in _ (sort_Permutation compare l)).
  apply list_elem_of_In, Hy.
Qed.

Lemma firstn_Forall {A : Type} (P : A -> Prop) (n : nat) (l : list A) :
  Forall P l -> Forall P (firstn n l).
Proof.
  revert l. induction n as [|n IH]; intros l HP; [constructor|].
  destruct l as [|x l]; [constructor|].
  apply Forall_cons_1 in HP. destruct HP as [Hx HP].
  cbn [firstn]. constructor; [exact Hx|apply IH, HP].
Qed.

Lemma sub_gt_zero (p q : Q) :
  gt (sub (Fin p) (Fin q)) zero = negb (Qle_bool p q).
Proof.
  unfold sub, add, opp, gt, zero, of_Z. f_equal.
  destruct (Qle_bool p q) eqn:E.
  - apply Qle_bool_iff. apply Qle_bool_iff in E.
    rewrite !Qred_correct.
    apply (Qplus_le_l _ _ q). ring_simplify. exact E.
  - destruct (Qle_bool (Qred (p + Qred (- q))) (inject_Z 0)) eqn:E';
      [|reflexivity].
    apply Qle_bool_iff in E'. rewrite !Qred_correct in E'.
    apply (Qplus_le_l _ _ q) in E'. ring_simplify in E'.
    apply Qle_bool_iff in E'. congruence.
Qed.

Section TopQueues.

Variable trainingInteractions : list row.

Let shown (queue : Dashboard.QueueRow) : Prop :=
  Dashboard.queue_name queue <> "Unknown" /\
  trim (Dashboard.queue_name queue) <> "" /\
  includes "backline" (toLowerCase (Dashboard.queue_name queue)) = false /\
  Dashboard.queue_calls queue
  = len (List.filter
           (fun call =>
              String.eqb (or_text (prop call "Queue") "Unknown")
                (Dashboard.queue_name queue))
           (Dashboard.validInteractions trainingInteractions)) /\
  Dashboard.queue_abandoned queue
  = len (List.filter
           (fun call =>
              String.eqb (or_text (prop call "Queue") "Unknown")
                (Dashboard.queue_name queue)
              && strict_eq (prop call "Abandoned") "YES")
           (Dashboard.validInteractions trainingInteractions)) /\
  1 <= Dashboard.queue_calls queue /\
  0 <= Dashboard.queue_abandoned queue <= Dashboard.queue_calls queue /\
  exists rate : Q,
    Dashboard.queue_rate queue = Fin rate /\ (0 <= rate /\ rate <= 100)%Q.

Lemma allQueues_shown :
  exists queues,
    Dashboard.allQueues trainingInteractions = Ok queues /\
    Forall shown queues.
Proof.
  unfold Dashboard.allQueues, Dashboard.queueStats.
  destruct (queueStats_loop (Dashboard.validInteractions trainingInteractions)
              [] [] ltac:(constructor) ltac:(intros k; reflexivity))
    as (stats & -> & Hnd & Hspec).
  cbn [bind ret app] in *. eexists. split; [reflexivity|].
  apply Forall_forall. intros queue Hin.
  apply list_elem_of_In in Hin. apply List.filter_In in Hin.
  destruct Hin as [Hin Hkeep].
  apply List.in_map_iff in Hin. destruct Hin as ([name stat] & <- & Hin).
  apply (map_get_of_In _ _ _ Hnd) in Hin.
  rewrite Hspec in Hin.
  cbn [Dashboard.queueRow Dashboard.queue_name] in Hkeep.
  apply andb_prop in Hkeep. destruct Hkeep as [Hkeep Hback].
  apply andb_prop in Hkeep. destruct Hkeep as [Hname Hblank].
  apply negb_true_iff in Hname, Hblank, Hback.
  apply String.eqb_neq in Hname, Hblank.
  set (calls := len (List.filter
                       (fun call =>
                          String.eqb (or_text (prop call "Queue") "Unknown")
                            name)
                       (Dashboard.validInteractions trainingInteractions)))
    in *.
  set (abandoned :=
         len (List.filter
                (fun call =>
                   String.eqb (or_text (prop call "Queue") "Unknown") name
                   && strict_eq (prop call "Abandoned") "YES")
                (Dashboard.validInteractions trainingInteractions))) in *.
  assert (Hcalls : 0 <= calls) by apply len_nonneg.
  assert (Habandoned : 0 <= abandoned <= calls).
  { split; [apply len_nonneg|]. unfold abandoned, calls.
    rewrite <- filter_filter_and. apply len_filter_le. }
  destruct (calls =? 0) eqn:E; [discriminate|].
  apply Z.eqb_neq in E. injection Hin as <-.
  unfold shown.
  cbn [Dashboard.queueRow Dashboard.queue_name Dashboard.queue_calls
         Dashboard.queue_abandoned Dashboard.queue_rate
         Dashboard.stat_calls Dashboard.stat_abandoned].
  fold calls. fold abandoned.
  repeat (split; [first [assumption|reflexivity|lia]|]).
  assert (Hpos : 0 < calls) by lia.
  replace (calls >? 0) with true by (symmetry; apply Z.gtb_lt; exact Hpos).
  destruct (percent_value abandoned calls Hpos) as (rate & -> & Hrate).
  exists rate. split; [reflexivity|].
  exact (percent_bounds abandoned calls rate Habandoned Hpos Hrate).
Qed.

(** X18.  [topQueues] is computed without an exception and has at most 9
    entries; none is named 'Unknown', blank or a Backline queue; each
    carries the counts of its queue, with at least one call and no more
    abandoned calls than calls, and a rate between 0 and 100; the entries
    are in ascending order of rate. *)
Theorem top_queues_selection :
  exists queues,
    Dashboard.topQueues trainingInteractions = Ok queues /\
    (List.length queues <= 9)%nat /\
    Forall shown queues /\
    Sorted.Sorted
      (fun a b =>
         exists p q : Q,
           Dashboard.queue_rate a = Fin p /\
           Dashboard.queue_rate b = Fin q /\ (p <= q)%Q)
      queues.
Proof.
  unfold Dashboard.topQueues.
  destruct allQueues_shown as (queues & -> & Hshown).
  cbn [bind ret]. eexists. split; [reflexivity|].
  split; [apply List.firstn_le_length|].
  split.
  - apply firstn_Forall, sort_Forall, firstn_Forall, sort_Forall, Hshown.
  - apply firstn_Sorted.
    apply (sort_Sorted _ shown).
    + intros x y Hx Hy.
      destruct Hx as (_ & _ & _ & _ & _ & _ & _ & p & Hp & _).
      destruct Hy as (_ & _ & _ & _ & _ & _ & _ & q & Hq & _).
      rewrite Hp, Hq, sub_gt_zero. intros H.
      apply negb_true_iff in H.
      exists q, p. repeat split; try assumption.
      apply Qlt_le_weak, Qnot_le_lt. intros Hle.
      apply Qle_bool_iff in Hle. congruence.
    + intros x y Hx Hy.
      destruct Hx as (_ & _ & _ & _ & _ & _ & _ & p & Hp & _).
      destruct Hy as (_ & _ & _ & _ & _ & _ & _ & q & Hq & _).
      rewrite Hp, Hq, sub_gt_zero. intros H.
      apply negb_false_iff in H. apply Qle_bool_iff in H.
      exists p, q. repeat split; assumption.
    + apply firstn_Forall, sort_Forall, Hshown.
Qed.

End TopQueues.

(** X19.  When at most 9 queues remain after the exclusions, [topQueues]
    shows all of them. *)
Theorem top_queues_keep_short_lists (trainingInteractions : list row)
  (queues : list Dashboard.QueueRow) :
  Dashboard.allQueues trainingInteractions = Ok queues ->
  (List.length queues <= 9)%nat ->
  exists shown,
    Dashboard.topQueues trainingInteractions = Ok shown /\
    Permutation shown queues.
Proof.
  intros Hall Hlen. unfold Dashboard.topQueues. rewrite Hall.
  cbn [bind ret]. eexists. split; [reflexivity|].
  assert (Hsorted : Permutation
                      (sort (fun a b => of_Z (Dashboard.queue_calls b
                                              - Dashboard.queue_calls a))
                         queues) queues)
    by apply sort_Permutation.
  rewrite (List.firstn_all2 (n := 15)).
  2:{ rewrite (Permutation_length Hsorted). lia. }
  rewrite List.firstn_all2.
  2:{ rewrite (Permutation_length (sort_Permutation _ _)).
      rewrite (Permutation_length Hsorted). lia. }
  eapply perm_trans; [apply sort_Permutation|exact Hsorted].
Qed.

Lemma top_queues_keep_short_lists_witness :
  exists shown,
    Dashboard.topQueues Examples.ten_inbound_one_abandoned = Ok shown /\
    Permutation shown
      [{| Dashboard.queue_name := "Support";
          Dashboard.queue_calls := 10;
          Dashboard.queue_abandoned := 1;
          Dashboard.queue_rate := of_Z 10 |}].
Proof.
  apply (top_queues_keep_short_lists Examples.ten_inbound_one_abandoned).
  - vm_compute. reflexivity.
  - cbn [List.length]. lia.
Defined.

(** ** The utilization distribution and the time KPIs of the Dashboard *)

Lemma gt_sub_zero (x y : number) : gt (sub x y) zero = gt x y.
Proof.
  destruct x as [|a|p], y as [|b|q]; try reflexivity.
  - destruct a, b; reflexivity.
  - destruct b; reflexivity.
  - apply sub_gt_zero.
Qed.

Lemma gt_asymmetric (x y : number) : gt x y = true -> gt y x = false.
Proof.
  destruct x as [|a|p], y as [|b|q]; cbn [gt]; try discriminate;
    try (destruct a; cbn; congruence).
  - destruct a, b; cbn; congruence.
  - destruct b; cbn; congruence.
  - intros H. apply negb_true_iff in H. apply negb_false_iff.
    apply Qle_bool_iff. apply Qlt_le_weak, Qnot_le_lt. intros Hle.
    apply Qle_bool_iff in Hle. congruence.
Qed.

Lemma dashboard_minutesOf_total (r : row) (name : string) :
  exists n, Dashboard.minutesOf r name = Ok n.
Proof. rewrite dashboard_minutesOf. apply minutesOf_total. Qed.

Lemma mapped_length {A B : Type} (f : A -> exc B) (l : list A) :
  forall mapped result,
    forEachM
      (fun mapped x => let* entry := f x in ret (mapped ++ [entry])%list)
      l mapped = Ok result ->
    List.length result = (List.length mapped + List.length l)%nat.
Proof.
  induction l as [|x l IH]; intros mapped result H; cbn [forEachM] in H.
  - injection H as <-. cbn [List.length]. lia.
  - destruct (f x) as [entry|e]; cbn [bind ret] in H; [|discriminate].
    apply IH in H. rewrite H, List.length_app. cbn [List.length]. lia.
Qed.

(** X20.  The utilization distribution is computed without an exception,
    has at most one entry per status row, lists only agents whose
    utilization is above 0 and is in descending order: no entry is followed
    by one with a higher utilization. *)
Theorem agent_utilization_distribution (agentStatus : list row) :
  exists agents,
    Dashboard.agentUtilization agentStatus = Ok agents /\
    (List.length agents <= List.length agentStatus)%nat /\
    Forall
      (fun agent => gt (Dashboard.agent_utilization agent) zero = true)
      agents /\
    Sorted.Sorted
      (fun a b =>
         gt (Dashboard.agent_utilization b) (Dashboard.agent_utilization a)
         = false)
      agents.
Proof.
  unfold Dashboard.agentUtilization.
  destruct (forEachM_total
              (fun mapped agent =>
                 let* entry := Dashboard.utilizationOf agent in
                 ret (mapped ++ [entry])%list)
              (Dashboard.validAgentStatus agentStatus))
    with (s := @nil Dashboard.AgentUtilization)
    as [mapped Hmapped].
  { intros mapped agent. unfold Dashboard.utilizationOf.
    destruct (dashboard_minutesOf_total agent "Logged In") as [logged ->].
    destruct (dashboard_minutesOf_total agent "On Queue") as [onQueue ->].
    cbn [bind ret]. eexists. reflexivity. }
  rewrite Hmapped. cbn [bind ret]. eexists. split; [reflexivity|].
  assert (Hkept : Forall
                    (fun agent =>
                       gt (Dashboard.agent_utilization agent) zero = true)
                    (List.filter
                       (fun agent =>
                          gt (Dashboard.agent_utilization agent) zero)
                       mapped)).
  { apply Forall_forall. intros agent Hin. apply list_elem_of_In in Hin.
    apply List.filter_In in Hin. apply Hin. }
  split; [|split].
  - rewrite (Permutation_length (sort_Permutation _ _)).
    apply mapped_length in Hmapped. cbn [List.length] in Hmapped.
    pose proof (List.filter_length_le
                  (fun agent => gt (Dashboard.agent_utilization agent) zero)
                  mapped).
    pose proof (List.filter_length_le
                  (fun agent =>
                     truthy (prop agent "Logged In")
                     && negb (strict_eq (prop agent "Logged In")
                                "0:00:00.000"))
                  agentStatus).
    unfold Dashboard.validAgentStatus in Hmapped. lia.
  - apply sort_Forall, Hkept.
  - apply (sort_Sorted _ (fun _ => True)).
    + intros x y _ _. rewrite gt_sub_zero. apply gt_asymmetric.
    + intros x y _ _. rewrite gt_sub_zero. intros H. exact H.
    + apply Forall_forall. intros; exact I.
Qed.

(** X21.  The Dashboard's Average Speed of Answer, Average Handle Time,
    productive utilization and on-queue utilization are computed without an
    exception, whatever the tables hold. *)
Theorem dashboard_kpis_return (agentStatus trainingInteractions : list row) :
  exists asa aht productive onQueue : number,
    Dashboard.avgSpeedOfAnswer trainingInteractions = Ok asa /\
    Dashboard.avgHandleTime trainingInteractions = Ok aht /\
    Dashboard.productiveUtilization trainingInteractions agentStatus
    = Ok productive /\
    Dashboard.onQueueUtilization agentStatus = Ok onQueue.
Proof.
  assert (Hhandle : forall (total : number) (call : row),
            exists total',
              (let* handle := Dashboard.minutesOf call "Total Handle" in
               let* acw := Dashboard.minutesOf call "Total ACW" in
               ret (add (add total handle) acw)) = Ok total').
  { intros total call.
    destruct (dashboard_minutesOf_total call "Total Handle") as [handle ->].
    destruct (dashboard_minutesOf_total call "Total ACW") as [acw ->].
    cbn [bind ret]. eexists. reflexivity. }
  destruct (forEachM_total
              (fun total call =>
                 let* queueTime := Dashboard.minutesOf call "Total Queue" in
                 ret (add total queueTime))
              (Dashboard.answeredInbound trainingInteractions)) with (s := zero)
    as [queue Hqueue].
  { intros total call.
    destruct (dashboard_minutesOf_total call "Total Queue") as [v ->].
    cbn [bind ret]. eexists. reflexivity. }
  destruct (forEachM_total _ (Dashboard.answeredInbound trainingInteractions)
              Hhandle zero) as [handle Hhandled].
  destruct (forEachM_total _ (Dashboard.allAnsweredCalls trainingInteractions)
              Hhandle zero) as [productive Hproductive].
  destruct (forEachM_total
              (fun totals agent =>
                 let* logged := Dashboard.minutesOf agent "Logged In" in
                 let* onQueue := Dashboard.minutesOf agent "On Queue" in
                 ret (add (fst totals) logged, add (snd totals) onQueue))
              (Dashboard.validAgentStatus agentStatus)) with (s := (zero, zero))
    as [totals Htotals].
  { intros totals agent.
    destruct (dashboard_minutesOf_total agent "Logged In") as [logged ->].
    destruct (dashboard_minutesOf_total agent "On Queue") as [onQueue ->].
    cbn [bind ret]. eexists. reflexivity. }
  unfold Dashboard.avgSpeedOfAnswer, Dashboard.avgHandleTime,
    Dashboard.productiveUtilization, Dashboard.onQueueUtilization,
    Dashboard.totalQueueTime, Dashboard.totalHandleTime,
    Dashboard.totalProductiveTime, Dashboard.loggedAndOnQueue.
  rewrite Hqueue, Hhandled, Hproductive, Htotals. cbn [bind ret].
  eexists _, _, _, _. repeat split; reflexivity.
Qed.

(** ** [formatTime] *)



